(** * saas-notes-backend: a shallow embedding of [src/index.js]

    The Express application of [src/index.js] is embedded as pure functions
    over an explicit database state.  The three tables are the ones created
    by the SQL migration shipped with the repository (Tenant, User, Note);
    the Prisma calls made by the handlers are functions in a small
    state-and-exception monad; [try { ... } catch] is [try_catch]; the
    middleware chain [authenticate], [requireRole] is composed in front of
    the handlers exactly where [app.get]/[app.post]/... lists it.

    [jsonwebtoken] and [bcrypt] are external: they are the operations of the
    class [Externals]. *)

From Stdlib Require Import String Ascii List Bool ZArith Arith Lia.
From Stdlib Require Import Permutation Sorted.
Import ListNotations.

Local Open Scope list_scope.
Local Open Scope string_scope.

(* ===================================================================== *)
(** ** JavaScript values read from a JSON body *)
(* ===================================================================== *)

(** A scalar JSON value.  [undefined] is not a JSON value: a missing property
    is [None] in an [option json].  Numbers are the integral ones (a
    fractional number is truthy and not a string, like any non-zero integer).
    Arrays and objects nested inside a body field are not modelled. *)
Inductive json : Type :=
| JNull
| JBool (b : bool)
| JNum (n : Z)
| JStr (s : string).

(** The object produced by [express.json()]: property name, value. *)
Definition jsobject : Type := list (string * json).

(** [o[k]], with [None] for [undefined]. *)
Fixpoint prop (o : jsobject) (k : string) : option json :=
  match o with
  | [] => None
  | (k', v) :: rest => if String.eqb k' k then Some v else prop rest k
  end.

(** JavaScript truthiness, the meaning of [!x] being false. *)
Definition truthy (v : option json) : bool :=
  match v with
  | None => false
  | Some JNull => false
  | Some (JBool b) => b
  | Some (JNum n) => negb (Z.eqb n 0)
  | Some (JStr s) => negb (String.eqb s "")
  end.

(** [s.split(sep)] for a one-character separator. *)
Fixpoint split (sep : ascii) (s : string) : list string :=
  match s with
  | EmptyString => [EmptyString]
  | String c rest =>
      if Ascii.eqb c sep then EmptyString :: split sep rest
      else match split sep rest with
           | [] => [String c EmptyString]
           | seg :: segs => String c seg :: segs
           end
  end.

Definition space : ascii := " "%char.

(* ===================================================================== *)
(** ** Data model (the tables of the migration) *)
(* ===================================================================== *)

Inductive Plan : Type := FREE | PRO.
Inductive Role : Type := ADMIN | MEMBER.

Definition Plan_eqb (a b : Plan) : bool :=
  match a, b with
  | FREE, FREE | PRO, PRO => true
  | _, _ => false
  end.

Definition Role_eqb (a b : Role) : bool :=
  match a, b with
  | ADMIN, ADMIN | MEMBER, MEMBER => true
  | _, _ => false
  end.

Module Tenant.
Record t : Type := mk {
  id : string;
  name : string;
  slug : string;
  plan : Plan;
  createdAt : Z;
  updatedAt : Z
}.
End Tenant.

Module User.
Record t : Type := mk {
  id : string;
  email : string;
  password : string;
  role : Role;
  tenantId : string;
  createdAt : Z;
  updatedAt : Z
}.
End User.

Module Note.
Record t : Type := mk {
  id : string;
  title : string;
  content : string;
  tenantId : string;
  ownerId : option string;
  createdAt : Z;
  updatedAt : Z
}.
End Note.

(** The database: rows in table order. *)
Record Store : Type := mkStore {
  tenants : list Tenant.t;
  users : list User.t;
  notes : list Note.t
}.

(** The constraints of the migration that the handlers rely on: the three
    primary keys, and the unique indexes on [Tenant.slug] and [User.email]. *)
Record wf (s : Store) : Prop := mkWf {
  wf_tenant_pkey : NoDup (map Tenant.id (tenants s));
  wf_tenant_slug : NoDup (map Tenant.slug (tenants s));
  wf_user_pkey : NoDup (map User.id (users s));
  wf_user_email : NoDup (map User.email (users s));
  wf_note_pkey : NoDup (map Note.id (notes s))
}.

(* ===================================================================== *)
(** ** Tokens, requests and responses *)
(* ===================================================================== *)

(** The payload signed at login: [{ userId, tenantId, role }]. *)
Module Payload.
Record t : Type := mk {
  userId : string;
  tenantId : string;
  role : Role
}.
End Payload.

(** The object built by [toSafeUser]. *)
Module SafeUser.
Record t : Type := mk {
  id : string;
  email : string;
  role : Role;
  tenantId : string
}.
End SafeUser.

(** [jsonwebtoken] with the server's [JWT_SECRET], and [bcrypt].
    [jwt_sign p now] is [jwt.sign(p, JWT_SECRET, { expiresIn: '7d' })] at
    time [now]; [jwt_verify tok now] is [Some] of the payload when
    [jwt.verify(tok, JWT_SECRET)] returns at time [now] and [None] when it
    throws; [bcrypt_compare data hash] is the value the promise of
    [bcrypt.compare] resolves to.  No token is the empty string. *)
Class Externals : Type := {
  jwt_sign : Payload.t -> Z -> string;
  jwt_verify : string -> Z -> option Payload.t;
  bcrypt_compare : string -> string -> bool;
  jwt_verify_nonempty : forall now, jwt_verify "" now = None
}.

(** What a request does not decide: the clock, and the id that Prisma
    generates for a row it creates. *)
Record Env : Type := mkEnv {
  now : Z;
  newId : string
}.

Record Request : Type := mkRequest {
  authorization : option string;   (* req.headers.authorization *)
  body : option jsobject           (* req.body *)
}.

Inductive Body : Type :=
| BError (error : string)                          (* { error } *)
| BStatus (status : string)                        (* { status } *)
| BLogin (token : string) (user : SafeUser.t)      (* { token, user } *)
| BNote (note : Note.t)
| BNotes (notes : list Note.t)
| BUpgrade (message : string) (tenant : Tenant.t)  (* { message, tenant } *)
| BEmpty.

Record Response : Type := mkResponse {
  status : nat;
  payload : Body
}.

(** [res.json(b)] and [res.status(c).json(b)]. *)
Definition json_ok (b : Body) : Response := mkResponse 200 b.
Definition json_status (c : nat) (b : Body) : Response := mkResponse c b.

(* ===================================================================== *)
(** ** The handler monad: database state, early [return], exceptions *)
(* ===================================================================== *)

Inductive Outcome (A : Type) : Type :=
| Val (a : A)             (* the awaited value *)
| Reply (r : Response)    (* [return res...] *)
| Throw.                  (* a rejected promise or a thrown error *)

Arguments Val {A} a.
Arguments Reply {A} r.
Arguments Throw {A}.

Definition M (A : Type) : Type := Store -> Outcome A * Store.

Definition ret {A} (a : A) : M A := fun s => (Val a, s).
Definition reply {A} (r : Response) : M A := fun s => (Reply r, s).
Definition throw {A} : M A := fun s => (Throw, s).

Definition bind {A B} (m : M A) (k : A -> M B) : M B :=
  fun s =>
    match m s with
    | (Val a, s') => k a s'
    | (Reply r, s') => (Reply r, s')
    | (Throw, s') => (Throw, s')
    end.

Declare Scope handler_scope.
Delimit Scope handler_scope with handler.
Notation "x <- m ;; k" := (bind m (fun x => k))
  (at level 100, m at next level, right associativity) : handler_scope.

Definition internal_error : Response :=
  json_status 500 (BError "Internal server error").

(** [try { ... } catch (err) { res.status(500).json(...) }] around a handler
    body whose value is the response it sends last. *)
Definition try_catch (m : M Response) (s : Store) : Response * Store :=
  match m s with
  | (Val r, s') => (r, s')
  | (Reply r, s') => (r, s')
  | (Throw, s') => (internal_error, s')
  end.

(* ===================================================================== *)
(** ** The Prisma calls of the handlers *)
(* ===================================================================== *)

(** Each call is one statement against the database: it either returns, or
    throws and leaves every table as it was.  A call throws where the client
    or a constraint of the schema refuses it: a value that is not a string
    where the column is [TEXT] is refused by the client before any query
    (a validation error), a duplicate primary key or a dangling foreign key
    by the database.  A database that cannot be reached is not modelled. *)

Definition read {A} (f : Store -> A) : M A := fun s => (Val (f s), s).

(** [prisma.tenant.findUnique({ where: { id } })] *)
Definition tenant_findUnique (id : string) : M (option Tenant.t) :=
  read (fun s => find (fun t => String.eqb (Tenant.id t) id) (tenants s)).

(** [prisma.tenant.findFirst({ where: { slug } })] *)
Definition tenant_findFirst (slug : string) : M (option Tenant.t) :=
  read (fun s => find (fun t => String.eqb (Tenant.slug t) slug) (tenants s)).

Definition set_plan (p : Plan) (at_ : Z) (t : Tenant.t) : Tenant.t :=
  Tenant.mk (Tenant.id t) (Tenant.name t) (Tenant.slug t) p
            (Tenant.createdAt t) at_.

(** [prisma.tenant.update({ where: { id }, data: { plan } })]: the row with
    that primary key gets the plan and a new [updatedAt]; the updated row is
    returned; no such row is an error. *)
Definition tenant_update (env : Env) (id : string) (p : Plan) : M Tenant.t :=
  fun s =>
    match find (fun t => String.eqb (Tenant.id t) id) (tenants s) with
    | None => (Throw, s)
    | Some t =>
        let t' := set_plan p (now env) t in
        (Val t',
         mkStore
           (map (fun x => if String.eqb (Tenant.id x) id
                          then set_plan p (now env) x else x) (tenants s))
           (users s) (notes s))
    end.

(** [prisma.user.findUnique({ where: { email } })] *)
Definition user_findUnique (email : option json) : M (option User.t) :=
  match email with
  | Some (JStr e) =>
      read (fun s => find (fun u => String.eqb (User.email u) e) (users s))
  | _ => throw
  end.

Definition in_tenant (tenantId : string) (n : Note.t) : bool :=
  String.eqb (Note.tenantId n) tenantId.

(** [prisma.note.count({ where: { tenantId } })] *)
Definition note_count (tenantId : string) : M nat :=
  read (fun s => length (filter (in_tenant tenantId) (notes s))).

(** [prisma.note.create({ data: { title, content, tenantId, ownerId } })]:
    both texts must be strings; the generated id must be new (primary key);
    [tenantId] must be the id of a tenant and [ownerId] the id of a user
    (foreign keys).  The row is added with both timestamps at the current
    time and returned. *)
Definition note_create (env : Env) (title content : option json)
    (tenantId ownerId : string) : M Note.t :=
  match title, content with
  | Some (JStr t), Some (JStr c) =>
      fun s =>
        if existsb (fun n => String.eqb (Note.id n) (newId env)) (notes s)
        then (Throw, s)
        else if negb (existsb (fun x => String.eqb (Tenant.id x) tenantId)
                              (tenants s))
        then (Throw, s)
        else if negb (existsb (fun u => String.eqb (User.id u) ownerId)
                              (users s))
        then (Throw, s)
        else
          let n := Note.mk (newId env) t c tenantId (Some ownerId)
                           (now env) (now env) in
          (Val n, mkStore (tenants s) (users s) (notes s ++ [n]))
  | _, _ => throw
  end.

Fixpoint insert_desc (n : Note.t) (l : list Note.t) : list Note.t :=
  match l with
  | [] => [n]
  | m :: rest =>
      if Z.ltb (Note.createdAt m) (Note.createdAt n) then n :: l
      else m :: insert_desc n rest
  end.

(** [orderBy: { createdAt: 'desc' }] *)
Definition sort_desc (l : list Note.t) : list Note.t :=
  fold_right insert_desc [] l.

(** [prisma.note.findMany({ where: { tenantId }, orderBy: { createdAt: 'desc' } })] *)
Definition note_findMany (tenantId : string) : M (list Note.t) :=
  read (fun s => sort_desc (filter (in_tenant tenantId) (notes s))).

(** [prisma.note.findFirst({ where: { id, tenantId } })] *)
Definition note_findFirst (id tenantId : string) : M (option Note.t) :=
  read (fun s =>
          find (fun n => String.eqb (Note.id n) id && in_tenant tenantId n)
               (notes s)).

(** One field of [data] in an update of a [TEXT NOT NULL] column.  For the
    Prisma client a field whose value is [undefined] is a field that is not
    there: the column is left as it is.  A string replaces the column;
    [null] and the other scalars are refused. *)
Definition update_text (old : string) (v : option json) : option string :=
  match v with
  | None => Some old
  | Some (JStr x) => Some x
  | Some _ => None
  end.

Definition set_texts (title content : string) (at_ : Z) (n : Note.t) : Note.t :=
  Note.mk (Note.id n) title content (Note.tenantId n) (Note.ownerId n)
          (Note.createdAt n) at_.

(** [prisma.note.update({ where: { id }, data: { title, content } })].
    With no field left in [data] (both are [undefined]) nothing is written:
    the row is returned as it is stored, its [updatedAt] included.  With a
    field in [data] the row is written and [updatedAt] is the current
    time. *)
Definition note_update (env : Env) (id : string) (title content : option json)
    : M Note.t :=
  fun s =>
    match find (fun n => String.eqb (Note.id n) id) (notes s) with
    | None => (Throw, s)
    | Some n =>
        match update_text (Note.title n) title,
              update_text (Note.content n) content with
        | Some t, Some c =>
            match title, content with
            | None, None => (Val n, s)
            | _, _ =>
                let n' := set_texts t c (now env) n in
                (Val n',
                 mkStore (tenants s) (users s)
                   (map (fun x => if String.eqb (Note.id x) id
                                  then set_texts t c (now env) x else x)
                        (notes s)))
            end
        | _, _ => (Throw, s)
        end
    end.

(** [prisma.note.delete({ where: { id } })] *)
Definition note_delete (id : string) : M Note.t :=
  fun s =>
    match find (fun n => String.eqb (Note.id n) id) (notes s) with
    | None => (Throw, s)
    | Some n =>
        (Val n,
         mkStore (tenants s) (users s)
           (filter (fun x => negb (String.eqb (Note.id x) id)) (notes s)))
    end.

(** [bcrypt.compare(password, hash)], awaited: the promise is rejected when
    the data is not a string. *)
Definition bcrypt_compare_await `{Externals} (password : option json)
    (hash : string) : M bool :=
  match password with
  | Some (JStr p) => ret (bcrypt_compare p hash)
  | _ => throw
  end.

(* ===================================================================== *)
(** ** Middleware *)
(* ===================================================================== *)

Definition toSafeUser (u : User.t) : SafeUser.t :=
  SafeUser.mk (User.id u) (User.email u) (User.role u) (User.tenantId u).

(** [authenticate]: [inl] is the response it sends itself, [inr] the payload
    it stores in [req.user] before calling [next()]. *)
Definition authenticate `{Externals} (env : Env) (req : Request)
    : Response + Payload.t :=
  let auth := match authorization req with Some a => a | None => "" end in
  match nth_error (split space auth) 1 with
  | None => inl (json_status 401 (BError "Missing token"))
  | Some token =>
      if String.eqb token "" then inl (json_status 401 (BError "Missing token"))
      else match jwt_verify token (now env) with
           | Some payload => inr payload
           | None => inl (json_status 401 (BError "Invalid token"))
           end
  end.

(** [requireRole(role)] applied to [req.user]: [Some] is the response it
    sends itself, [None] is [next()]. *)
Definition requireRole (role : Role) (user : option Payload.t)
    : option Response :=
  match user with
  | None => Some (json_status 401 (BError "Unauthorized"))
  | Some u =>
      if Role_eqb (Payload.role u) role then None
      else Some (json_status 403 (BError "Forbidden"))
  end.

(* ===================================================================== *)
(** ** Handlers *)
(* ===================================================================== *)

Local Open Scope handler_scope.

(** [req.body || {}] *)
Definition body_or_empty (req : Request) : jsobject :=
  match body req with Some o => o | None => [] end.

(** [app.get('/health', ...)] *)
Definition get_health : Response := json_ok (BStatus "ok").

(** [app.post('/login', ...)], inside its [try]. *)
Definition post_login `{Externals} (env : Env) (req : Request) : M Response :=
  let email := prop (body_or_empty req) "email" in
  let password := prop (body_or_empty req) "password" in
  if negb (truthy email) || negb (truthy password)
  then reply (json_status 400 (BError "Email and password are required"))
  else
    user <- user_findUnique email ;;
    match user with
    | None => reply (json_status 401 (BError "Invalid credentials"))
    | Some user =>
        valid <- bcrypt_compare_await password (User.password user) ;;
        if negb valid
        then reply (json_status 401 (BError "Invalid credentials"))
        else
          let token :=
            jwt_sign (Payload.mk (User.id user) (User.tenantId user)
                                 (User.role user)) (now env) in
          ret (json_ok (BLogin token (toSafeUser user)))
    end.

(** [app.post('/notes', authenticate, ...)], inside its [try]. *)
Definition post_notes (env : Env) (user : Payload.t) (req : Request)
    : M Response :=
  let title := prop (body_or_empty req) "title" in
  let content := prop (body_or_empty req) "content" in
  if negb (truthy title) || negb (truthy content)
  then reply (json_status 400 (BError "Title and content are required"))
  else
    tenant <- tenant_findUnique (Payload.tenantId user) ;;
    match tenant with
    | None => reply (json_status 404 (BError "Tenant not found"))
    | Some tenant =>
        quota <-
          (if Plan_eqb (Tenant.plan tenant) FREE
           then
             count <- note_count (Tenant.id tenant) ;;
             if Nat.leb 3 count
             then reply (json_status 402
                          (BError "FREE plan limit reached. Upgrade to PRO."))
             else ret tt
           else ret tt) ;;
        note <- note_create env title content
                  (Payload.tenantId user) (Payload.userId user) ;;
        ret (json_status 201 (BNote note))
    end.

(** [app.get('/notes', authenticate, ...)] *)
Definition get_notes (user : Payload.t) : M Response :=
  notes <- note_findMany (Payload.tenantId user) ;;
  ret (json_ok (BNotes notes)).

(** [app.get('/notes/:id', authenticate, ...)] *)
Definition get_note (user : Payload.t) (id : string) : M Response :=
  note <- note_findFirst id (Payload.tenantId user) ;;
  match note with
  | None => reply (json_status 404 (BError "Not found"))
  | Some note => ret (json_ok (BNote note))
  end.

(** [app.put('/notes/:id', authenticate, ...)] *)
Definition put_note (env : Env) (user : Payload.t) (id : string)
    (req : Request) : M Response :=
  let title := prop (body_or_empty req) "title" in
  let content := prop (body_or_empty req) "content" in
  existing <- note_findFirst id (Payload.tenantId user) ;;
  match existing with
  | None => reply (json_status 404 (BError "Not found"))
  | Some existing =>
      updated <- note_update env (Note.id existing) title content ;;
      ret (json_ok (BNote updated))
  end.

(** [app.delete('/notes/:id', authenticate, ...)] *)
Definition delete_note (user : Payload.t) (id : string) : M Response :=
  existing <- note_findFirst id (Payload.tenantId user) ;;
  match existing with
  | None => reply (json_status 404 (BError "Not found"))
  | Some existing =>
      _ <- note_delete (Note.id existing) ;;
      ret (json_status 204 BEmpty)
  end.

(** [app.post('/tenants/:slug/upgrade', authenticate, requireRole('ADMIN'), ...)] *)
Definition post_upgrade (env : Env) (user : Payload.t) (slug : string)
    : M Response :=
  tenant <- tenant_findFirst slug ;;
  match tenant with
  | None => reply (json_status 404 (BError "Tenant not found"))
  | Some tenant =>
      if negb (String.eqb (Tenant.id tenant) (Payload.tenantId user))
      then reply (json_status 403 (BError "Cannot upgrade another tenant"))
      else if Plan_eqb (Tenant.plan tenant) PRO
      then reply (json_ok (BUpgrade "Already PRO" tenant))
      else
        updated <- tenant_update env (Tenant.id tenant) PRO ;;
        ret (json_ok (BUpgrade "Upgraded to PRO" updated))
  end.

(* ===================================================================== *)
(** ** The application: routes and their middleware chains *)
(* ===================================================================== *)

Inductive Route : Type :=
| GET_health
| POST_login
| POST_notes
| GET_notes
| GET_note (id : string)
| PUT_note (id : string)
| DELETE_note (id : string)
| POST_upgrade (slug : string).

(** A route behind [authenticate]. *)
Definition authenticated `{Externals} (env : Env) (req : Request)
    (handler : Payload.t -> Store -> Response * Store) (s : Store)
    : Response * Store :=
  match authenticate env req with
  | inl r => (r, s)
  | inr user => handler user s
  end.

(** A handler behind [requireRole(role)]. *)
Definition requiring (role : Role)
    (handler : Payload.t -> Store -> Response * Store)
    (user : Payload.t) (s : Store) : Response * Store :=
  match requireRole role (Some user) with
  | Some r => (r, s)
  | None => handler user s
  end.

Definition app `{Externals} (env : Env) (route : Route) (req : Request)
    (s : Store) : Response * Store :=
  match route with
  | GET_health => (get_health, s)
  | POST_login => try_catch (post_login env req) s
  | POST_notes =>
      authenticated env req (fun u => try_catch (post_notes env u req)) s
  | GET_notes =>
      authenticated env req (fun u => try_catch (get_notes u)) s
  | GET_note id =>
      authenticated env req (fun u => try_catch (get_note u id)) s
  | PUT_note id =>
      authenticated env req (fun u => try_catch (put_note env u id req)) s
  | DELETE_note id =>
      authenticated env req (fun u => try_catch (delete_note u id)) s
  | POST_upgrade slug =>
      authenticated env req
        (requiring ADMIN (fun u => try_catch (post_upgrade env u slug))) s
  end.

(* ===================================================================== *)
(** ** Vocabulary of the statements *)
(* ===================================================================== *)

(** The note that POST /notes stores for a caller. *)
Definition created_note (env : Env) (user : Payload.t) (title content : string)
    : Note.t :=
  Note.mk (newId env) title content (Payload.tenantId user)
          (Some (Payload.userId user)) (now env) (now env).

Definition add_note (n : Note.t) (s : Store) : Store :=
  mkStore (tenants s) (users s) (notes s ++ [n]).

(** [s'] is [s] after one successful write call of the Prisma client. *)
Inductive one_write (env : Env) (s : Store) : Store -> Prop :=
| Write_note_create (title content : option json) (tenantId ownerId : string)
    (n : Note.t) (s' : Store) :
    note_create env title content tenantId ownerId s = (Val n, s') ->
    one_write env s s'
| Write_note_update (id : string) (title content : option json)
    (n : Note.t) (s' : Store) :
    note_update env id title content s = (Val n, s') ->
    one_write env s s'
| Write_note_delete (id : string) (n : Note.t) (s' : Store) :
    note_delete id s = (Val n, s') ->
    one_write env s s'
| Write_tenant_update (id : string) (p : Plan) (t : Tenant.t) (s' : Store) :
    tenant_update env id p s = (Val t, s') ->
    one_write env s s'.

(** A database call is atomic: it returns a value, or throws and leaves the
    database as it was; it never sends a response. *)
Definition atomic {A} (m : M A) : Prop :=
  forall s : Store,
    match m s with
    | (Val _, _) => True
    | (Reply _, _) => False
    | (Throw, s') => s' = s
    end.

(** Two user rows that differ at most in the password column (and the
    timestamps), and that give a password the same verdict. *)
Definition same_public `{Externals} (password : option json)
    (u1 u2 : User.t) : Prop :=
  toSafeUser u1 = toSafeUser u2 /\
  forall p : string,
    password = Some (JStr p) ->
    bcrypt_compare p (User.password u1) = bcrypt_compare p (User.password u2).

(** [c] occurs in [s]. *)
Fixpoint has_char (c : ascii) (s : string) : bool :=
  match s with
  | EmptyString => false
  | String c' rest => Ascii.eqb c' c || has_char c rest
  end.

(** [a] may stand before [b] where notes are ordered by [createdAt],
    descending. *)
Definition newer_first (a b : Note.t) : Prop :=
  (Note.createdAt b <= Note.createdAt a)%Z.

(** The number of notes of a tenant, as [prisma.note.count] counts them. *)
Definition count_notes (tenantId : string) (s : Store) : nat :=
  length (filter (in_tenant tenantId) (notes s)).

(** No tenant on the FREE plan has more than three notes. *)
Definition within_quota (s : Store) : bool :=
  forallb (fun t => Plan_eqb (Tenant.plan t) PRO
                    || Nat.leb (count_notes (Tenant.id t) s) 3)
          (tenants s).


(** What may become of a Tenant row: it stays as it is, or it goes from
    FREE to PRO with a new [updatedAt]. *)
Definition tenant_kept (t t' : Tenant.t) : Prop :=
  t' = t \/
  (Tenant.plan t = FREE /\ exists at_ : Z, t' = set_plan PRO at_ t).

(** The status codes of the error responses. *)
Definition error_status : list nat := [400; 401; 402; 403; 404; 500].

(** Requests served one after the other, each at its own time. *)
Fixpoint serve `{Externals} (calls : list (Env * Route * Request)) (s : Store)
    : Store :=
  match calls with
  | [] => s
  | (env, route, req) :: rest => serve rest (snd (app env route req s))
  end.

(** What a request on a route may do to the database: nothing; or, for a
    caller that [authenticate] lets through, add a note of the caller's
    tenant (the tenant being PRO or below the quota), rewrite the texts of a
    note of the caller's tenant, remove a note of the caller's tenant, or,
    for an ADMIN, turn the caller's own FREE tenant into a PRO one. *)
Inductive changes `{Externals} (env : Env) (req : Request) (s : Store)
    : Route -> Store -> Prop :=
| Unchanged (route : Route) : changes env req s route s
| Created (user : Payload.t) (tenant : Tenant.t) (title content : string) :
    authenticate env req = inr user ->
    find (fun t => String.eqb (Tenant.id t) (Payload.tenantId user)) (tenants s)
    = Some tenant ->
    Tenant.plan tenant = PRO \/ count_notes (Payload.tenantId user) s < 3 ->
    ~ In (newId env) (map Note.id (notes s)) ->
    In (Payload.userId user) (map User.id (users s)) ->
    changes env req s POST_notes
      (add_note (created_note env user title content) s)
| Updated (user : Payload.t) (old : Note.t) (title content : string) :
    authenticate env req = inr user ->
    In old (notes s) ->
    Note.tenantId old = Payload.tenantId user ->
    changes env req s (PUT_note (Note.id old))
      (mkStore (tenants s) (users s)
         (map (fun x => if String.eqb (Note.id x) (Note.id old)
                        then set_texts title content (now env) x else x)
              (notes s)))
| Deleted (user : Payload.t) (old : Note.t) :
    authenticate env req = inr user ->
    In old (notes s) ->
    Note.tenantId old = Payload.tenantId user ->
    changes env req s (DELETE_note (Note.id old))
      (mkStore (tenants s) (users s)
         (filter (fun x => negb (String.eqb (Note.id x) (Note.id old)))
                 (notes s)))
| Upgraded (user : Payload.t) (tenant : Tenant.t) :
    authenticate env req = inr user ->
    Payload.role user = ADMIN ->
    In tenant (tenants s) ->
    Tenant.id tenant = Payload.tenantId user ->
    Tenant.plan tenant = FREE ->
    changes env req s (POST_upgrade (Tenant.slug tenant))
      (mkStore
         (map (fun x => if String.eqb (Tenant.id x) (Tenant.id tenant)
                        then set_plan PRO (now env) x else x) (tenants s))
         (users s) (notes s)).

(* ===================================================================== *)
(** ** A small database and toy externals, for running the model *)
(* ===================================================================== *)

Module Demo.

Definition acme : Tenant.t := Tenant.mk "t1" "Acme" "acme" FREE 0 0.
Definition globex : Tenant.t := Tenant.mk "t2" "Globex" "globex" FREE 0 0.

Definition alice : User.t :=
  User.mk "u1" "admin@acme.test" "h:password" ADMIN "t1" 0 0.
Definition bob : User.t :=
  User.mk "u2" "user@acme.test" "h:password" MEMBER "t1" 0 0.
Definition carol : User.t :=
  User.mk "u3" "admin@globex.test" "h:secret" ADMIN "t2" 0 0.

Definition note_a1 : Note.t := Note.mk "n1" "a1" "first" "t1" (Some "u1") 1 1.
Definition note_a2 : Note.t := Note.mk "n2" "a2" "second" "t1" (Some "u2") 2 2.
Definition note_a3 : Note.t := Note.mk "n3" "a3" "third" "t1" (Some "u2") 3 3.
Definition note_g1 : Note.t := Note.mk "n4" "g1" "theirs" "t2" (Some "u3") 4 4.

Definition db : Store :=
  mkStore [acme; globex] [alice; bob; carol]
          [note_a1; note_a2; note_a3; note_g1].

(** The same database with another hash stored for Carol. *)
Definition carol_rehashed : User.t :=
  User.mk "u3" "admin@globex.test" "h:changed" ADMIN "t2" 0 9.

Definition db_rehashed : Store :=
  mkStore (tenants db) [alice; bob; carol_rehashed] (notes db).

Definition payload_of (u : User.t) : Payload.t :=
  Payload.mk (User.id u) (User.tenantId u) (User.role u).

(** Tokens are ["jwt." ++ userId], valid for seven days from time 0. *)
Definition week : Z := 604800.

Definition toy_verify (tok : string) (at_ : Z) : option Payload.t :=
  if String.eqb tok "" then None
  else if Z.leb week at_ then None
  else
    match find (fun u => String.eqb ("jwt." ++ User.id u) tok)
               [alice; bob; carol] with
    | Some u => Some (payload_of u)
    | None => None
    end.

#[global] Instance toy : Externals := {
  jwt_sign := fun p _ => "jwt." ++ Payload.userId p;
  jwt_verify := toy_verify;
  bcrypt_compare := fun data hash => String.eqb ("h:" ++ data) hash;
  jwt_verify_nonempty := fun _ => eq_refl
}.

(** Login requests: nobody's email without a password, nobody's email with
    one, and Alice's email with a wrong one. *)
Definition login_no_password : Request :=
  mkRequest None (Some [("email", JStr "nobody@acme.test")]).
Definition login_nobody : Request :=
  mkRequest None (Some [("email", JStr "nobody@acme.test");
                        ("password", JStr "password")]).
Definition login_wrong : Request :=
  mkRequest None (Some [("email", JStr "admin@acme.test");
                        ("password", JStr "guess")]).
Definition login_alice : Request :=
  mkRequest None (Some [("email", JStr "admin@acme.test");
                        ("password", JStr "password")]).

(** Five requests: Carol adds a note, Alice removes one, Bob adds one,
    Alice upgrades Acme, Carol retitles a note. *)
Definition calls : list (Env * Route * Request) :=
  [(mkEnv 150 "n7", POST_notes,
    mkRequest (Some "Bearer jwt.u3")
              (Some [("title", JStr "g2"); ("content", JStr "more")]));
   (mkEnv 160 "n8", DELETE_note "n2", mkRequest (Some "Bearer jwt.u1") None);
   (mkEnv 170 "n9", POST_notes,
    mkRequest (Some "Bearer jwt.u2")
              (Some [("title", JStr "a5"); ("content", JStr "again")]));
   (mkEnv 180 "n10", POST_upgrade "acme",
    mkRequest (Some "Bearer jwt.u1") None);
   (mkEnv 190 "n11", PUT_note "n4",
    mkRequest (Some "Bearer jwt.u3") (Some [("title", JStr "G1")]))].

Definition env1 : Env := mkEnv 100 "n5".
Definition env2 : Env := mkEnv 200 "n6".

Definition bearer (u : User.t) (b : option jsobject) : Request :=
  mkRequest (Some ("Bearer jwt." ++ User.id u)) b.

Definition edit_content : Request :=
  bearer bob (Some [("content", JStr "new text")]).

(** A note without a title. *)
Definition untitled : Request :=
  bearer bob (Some [("content", JStr "fourth")]).

(** A fourth note for Acme. *)
Definition fourth : Request :=
  bearer bob (Some [("title", JStr "a4"); ("content", JStr "fourth")]).

(** The same, with a tenant and an owner supplied by the client. *)
Definition forged : Request :=
  bearer bob (Some [("title", JStr "a4"); ("content", JStr "fourth");
                    ("tenantId", JStr "t2"); ("ownerId", JStr "u3")]).

(** Acme on the PRO plan, and a database in which Bob's user row has been
    deleted (his notes are kept, their owner set to null) while his token
    still verifies. *)
Definition acme_pro : Tenant.t := Tenant.mk "t1" "Acme" "acme" PRO 0 50.

Definition db_bob_gone : Store :=
  mkStore [acme_pro; globex] [alice; carol]
          [note_a1;
           Note.mk "n2" "a2" "second" "t1" None 2 2;
           Note.mk "n3" "a3" "third" "t1" None 3 3;
           note_g1].

(** The database after Alice has upgraded Acme. *)
Definition db_pro : Store :=
  snd (app env1 (POST_upgrade "acme") (bearer alice None) db).

End Demo.

(* ===================================================================== *)
(** ** Lookups by a unique key *)
(* ===================================================================== *)

Section Keys.

Context {A : Type} (key : A -> string).

Lemma key_unique (l : list A) (x y : A) :
  NoDup (map key l) -> In x l -> In y l -> key x = key y -> x = y.
Proof.
  induction l as [|a l IH]; simpl; [tauto|].
  intros Hnd Hx Hy Hk.
  inversion Hnd as [|? ? Hnotin Hnd']; subst.
  destruct Hx as [-> | Hx], Hy as [-> | Hy]; auto.
  - exfalso. apply Hnotin. rewrite Hk. now apply in_map.
  - exfalso. apply Hnotin. rewrite <- Hk. now apply in_map.
Qed.

Lemma find_key (l : list A) (x : A) :
  NoDup (map key l) -> In x l ->
  find (fun y => String.eqb (key y) (key x)) l = Some x.
Proof.
  intros Hnd Hin.
  destruct (find _ l) as [y|] eqn:F.
  - apply find_some in F as [Hy Hk].
    apply String.eqb_eq in Hk.
    f_equal. now apply (key_unique l).
  - apply (find_none _ _ F) in Hin.
    now rewrite String.eqb_refl in Hin.
Qed.

End Keys.

Lemma demo_db_wf : wf Demo.db.
Proof.
  constructor; simpl;
    repeat (constructor; [simpl; intuition discriminate|]); constructor.
Qed.

(* ===================================================================== *)
(** ** GET /notes/:id *)
(* ===================================================================== *)

(** C1.  With a token that [authenticate] accepts, asking for the id of a
    stored note of another tenant is answered 404 "Not found" and the
    database is untouched; and whenever GET /notes/:id answers 200, the body
    is a stored note whose id is the requested one and whose tenant is the
    tenant of the token. *)
Theorem get_note_tenant_isolation `{Externals}
    (env : Env) (req : Request) (s : Store) (user : Payload.t) :
  wf s ->
  authenticate env req = inr user ->
  (forall n : Note.t,
      In n (notes s) ->
      Note.tenantId n <> Payload.tenantId user ->
      app env (GET_note (Note.id n)) req s
      = (json_status 404 (BError "Not found"), s))
  /\
  (forall (id : string) (r : Response) (s' : Store),
      app env (GET_note id) req s = (r, s') ->
      status r = 200 ->
      exists n : Note.t,
        payload r = BNote n /\ In n (notes s) /\
        Note.id n = id /\ Note.tenantId n = Payload.tenantId user).
Proof.
  intros Hwf Hauth.
  split.
  - intros n Hin Hten.
    unfold app, authenticated. rewrite Hauth.
    unfold try_catch, get_note, bind, note_findFirst, read.
    destruct (find _ (notes s)) as [m|] eqn:F; [|reflexivity].
    exfalso.
    apply find_some in F as [Hm Hp].
    apply andb_true_iff in Hp as [Hid Ht].
    apply String.eqb_eq in Hid. apply String.eqb_eq in Ht.
    assert (m = n) as -> by
      (apply (key_unique Note.id (notes s)); auto using wf_note_pkey).
    contradiction.
  - intros id r s'.
    unfold app, authenticated. rewrite Hauth.
    unfold try_catch, get_note, bind, note_findFirst, read.
    destruct (find _ (notes s)) as [m|] eqn:F.
    + intros [= <- <-] _.
      apply find_some in F as [Hm Hp].
      apply andb_true_iff in Hp as [Hid Ht].
      apply String.eqb_eq in Hid. apply String.eqb_eq in Ht.
      exists m. simpl. auto.
    + intros [= <- <-]. simpl. discriminate.
Qed.

Lemma get_note_tenant_isolation_witness :
  wf Demo.db /\
  authenticate Demo.env1 (Demo.bearer Demo.alice None)
  = inr (Demo.payload_of Demo.alice) /\
  In Demo.note_g1 (notes Demo.db) /\
  Note.tenantId Demo.note_g1 <> Payload.tenantId (Demo.payload_of Demo.alice) /\
  app Demo.env1 (GET_note "n4") (Demo.bearer Demo.alice None) Demo.db
  = (json_status 404 (BError "Not found"), Demo.db).
Proof.
  assert (Hin : In Demo.note_g1 (notes Demo.db)) by (simpl; tauto).
  assert (Hne : Note.tenantId Demo.note_g1
                <> Payload.tenantId (Demo.payload_of Demo.alice))
    by (simpl; discriminate).
  split; [exact demo_db_wf|].
  split; [reflexivity|].
  split; [exact Hin|].
  split; [exact Hne|].
  exact (proj1 (get_note_tenant_isolation Demo.env1
                  (Demo.bearer Demo.alice None) Demo.db
                  (Demo.payload_of Demo.alice) demo_db_wf eq_refl)
               Demo.note_g1 Hin Hne).
Defined.

(* ===================================================================== *)
(** ** POST /notes *)
(* ===================================================================== *)

#[local] Arguments Nat.leb : simpl never.

(** Case analysis on an innermost scrutinee of the goal. *)
Ltac break_match :=
  match goal with
  | |- context [match ?x with _ => _ end] =>
      lazymatch x with
      | context [match _ with _ => _ end] => fail
      | _ => destruct x eqn:?; simpl
      end
  end.

Lemma truthy_nonempty (x : string) : x <> "" -> truthy (Some (JStr x)) = true.
Proof.
  intros Hx. simpl. now apply String.eqb_neq in Hx as ->.
Qed.

Lemma existsb_id {A} (key : A -> string) (l : list A) (k : string) :
  existsb (fun x => String.eqb (key x) k) l = true <-> In k (map key l).
Proof.
  rewrite existsb_exists, in_map_iff.
  split; intros [x [H1 H2]]; exists x.
  - apply String.eqb_eq in H2. auto.
  - subst k. now rewrite String.eqb_refl.
Qed.

Lemma existsb_id_false {A} (key : A -> string) (l : list A) (k : string) :
  ~ In k (map key l) -> existsb (fun x => String.eqb (key x) k) l = false.
Proof.
  intros Hn. apply not_true_is_false. now rewrite existsb_id.
Qed.

(** What [authenticate] sends itself is a 401. *)
Lemma authenticate_rejects `{Externals} (env : Env) (req : Request)
    (r : Response) :
  authenticate env req = inl r -> status r = 401.
Proof.
  unfold authenticate.
  destruct (nth_error _ 1) as [tok|]; [|now intros [= <-]].
  destruct (String.eqb tok ""); [now intros [= <-]|].
  destruct (jwt_verify _ _); [discriminate|now intros [= <-]].
Qed.

(** The handler past its checks: the tenant of the token is found and is PRO
    or below the quota, the generated id is new and the caller is a user. *)
Lemma post_notes_creates (env : Env) (user : Payload.t) (req : Request)
    (s : Store) (title content : string) (tenant : Tenant.t) :
  prop (body_or_empty req) "title" = Some (JStr title) -> title <> "" ->
  prop (body_or_empty req) "content" = Some (JStr content) -> content <> "" ->
  find (fun t => String.eqb (Tenant.id t) (Payload.tenantId user)) (tenants s)
  = Some tenant ->
  Tenant.plan tenant = PRO \/
  length (filter (in_tenant (Payload.tenantId user)) (notes s)) < 3 ->
  ~ In (newId env) (map Note.id (notes s)) ->
  In (Payload.userId user) (map User.id (users s)) ->
  try_catch (post_notes env user req) s
  = (json_status 201 (BNote (created_note env user title content)),
     add_note (created_note env user title content) s).
Proof.
  intros Ht Htne Hc Hcne Hfind Hquota Hfresh Huser.
  assert (Hid : Tenant.id tenant = Payload.tenantId user).
  { apply find_some in Hfind as [_ E]. now apply String.eqb_eq in E. }
  assert (Hfk : existsb (fun x => String.eqb (Tenant.id x) (Payload.tenantId user))
                        (tenants s) = true).
  { apply existsb_id. apply find_some in Hfind as [Hin _].
    rewrite <- Hid. now apply in_map. }
  apply existsb_id_false in Hfresh.
  apply existsb_id in Huser.
  unfold try_catch, post_notes, bind, tenant_findUnique, note_count, read.
  rewrite Ht, Hc, !truthy_nonempty by assumption. simpl.
  rewrite Hfind, Hid.
  unfold note_create, ret, created_note, add_note.
  destruct Hquota as [Hpro | Hlt].
  - rewrite Hpro. simpl. now rewrite Hfresh, Hfk, Huser.
  - destruct (Plan_eqb (Tenant.plan tenant) FREE); simpl.
    + apply Nat.leb_gt in Hlt. rewrite Hlt. now rewrite Hfresh, Hfk, Huser.
    + now rewrite Hfresh, Hfk, Huser.
Qed.

(** C2, as the claim states it, fails: the caller's tenant is PRO, the
    token is accepted, title and content are non-empty strings, and the
    answer is 500 and not 201, because the user of the token is no longer
    stored and [Note.ownerId] references the User table. *)
Lemma post_notes_unknown_user_is_500 :
  authenticate Demo.env2 Demo.fourth = inr (Demo.payload_of Demo.bob) /\
  prop (body_or_empty Demo.fourth) "title" = Some (JStr "a4") /\
  prop (body_or_empty Demo.fourth) "content" = Some (JStr "fourth") /\
  In Demo.acme_pro (tenants Demo.db_bob_gone) /\
  Tenant.id Demo.acme_pro = Payload.tenantId (Demo.payload_of Demo.bob) /\
  Tenant.plan Demo.acme_pro = PRO /\
  ~ In (Payload.userId (Demo.payload_of Demo.bob))
       (map User.id (users Demo.db_bob_gone)) /\
  app Demo.env2 POST_notes Demo.fourth Demo.db_bob_gone
  = (internal_error, Demo.db_bob_gone) /\
  status (fst (app Demo.env2 POST_notes Demo.fourth Demo.db_bob_gone)) <> 201.
Proof.
  repeat split; try discriminate.
  - simpl. tauto.
  - simpl. intuition discriminate.
Qed.

(** C2, amended.  POST /notes with a token that [authenticate] accepts and
    a body whose title and content are non-empty strings, for a caller
    whose tenant is stored.  If the tenant is FREE and already has three or
    more notes, the answer is 402 and no note is created.  If the tenant is
    PRO, the count is not looked at: with the caller stored as a user and a
    new generated id, the answer is 201 with the created note, which is
    added to the table, however many notes the tenant has.  The same holds
    in the database left by a successful upgrade of that tenant, whatever
    its plan was before. *)
Theorem post_notes_plan_limit `{Externals}
    (env : Env) (req : Request) (s : Store) (user : Payload.t)
    (title content : string) (tenant : Tenant.t) :
  wf s ->
  authenticate env req = inr user ->
  prop (body_or_empty req) "title" = Some (JStr title) -> title <> "" ->
  prop (body_or_empty req) "content" = Some (JStr content) -> content <> "" ->
  In tenant (tenants s) ->
  Tenant.id tenant = Payload.tenantId user ->
  (Tenant.plan tenant = FREE ->
   3 <= length (filter (in_tenant (Payload.tenantId user)) (notes s)) ->
   app env POST_notes req s
   = (json_status 402 (BError "FREE plan limit reached. Upgrade to PRO."), s))
  /\
  (Tenant.plan tenant = PRO ->
   ~ In (newId env) (map Note.id (notes s)) ->
   In (Payload.userId user) (map User.id (users s)) ->
   app env POST_notes req s
   = (json_status 201 (BNote (created_note env user title content)),
      add_note (created_note env user title content) s))
  /\
  (forall (env0 : Env) (req0 : Request) (r0 : Response) (s1 : Store),
      app env0 (POST_upgrade (Tenant.slug tenant)) req0 s = (r0, s1) ->
      status r0 = 200 ->
      ~ In (newId env) (map Note.id (notes s1)) ->
      In (Payload.userId user) (map User.id (users s1)) ->
      app env POST_notes req s1
      = (json_status 201 (BNote (created_note env user title content)),
         add_note (created_note env user title content) s1)).
Proof.
  intros Hwf Hauth Ht Htne Hc Hcne Hin Hid.
  assert (Hfind : find (fun t => String.eqb (Tenant.id t) (Payload.tenantId user))
                       (tenants s) = Some tenant).
  { rewrite <- Hid. apply find_key; auto using wf_tenant_pkey. }
  split; [|split].
  - intros Hfree Hfull.
    unfold app, authenticated. rewrite Hauth.
    unfold try_catch, post_notes, bind, tenant_findUnique, note_count, read.
    rewrite Ht, Hc, !truthy_nonempty by assumption. simpl.
    rewrite Hfind, Hfree, Hid. simpl.
    apply Nat.leb_le in Hfull. now rewrite Hfull.
  - intros Hpro Hfresh Huser.
    unfold app, authenticated. rewrite Hauth.
    apply post_notes_creates with (tenant := tenant); auto.
  - intros env0 req0 r0 s1 Hup H200 Hfresh Huser.
    unfold app at 1, authenticated. rewrite Hauth.
    assert (Hslug : find (fun t => String.eqb (Tenant.slug t) (Tenant.slug tenant))
                         (tenants s) = Some tenant)
      by (apply find_key; auto using wf_tenant_slug).
    revert Hup. unfold app, authenticated, requiring.
    destruct (authenticate env0 req0) as [r|admin] eqn:Hadmin.
    { intros [= <- <-]. apply authenticate_rejects in Hadmin. congruence. }
    destruct (requireRole ADMIN (Some admin)) as [r|] eqn:Hrole.
    { simpl in Hrole. destruct (Role_eqb _ _); [discriminate|].
      injection Hrole as <-. intros [= <- <-]. discriminate H200. }
    unfold try_catch at 1, post_upgrade, bind, tenant_findFirst, read.
    rewrite Hslug.
    destruct (negb (String.eqb (Tenant.id tenant) (Payload.tenantId admin)));
      [intros [= <- <-]; discriminate H200|].
    destruct (Plan_eqb (Tenant.plan tenant) PRO) eqn:Hplan.
    + intros [= <- <-].
      apply post_notes_creates with (tenant := tenant); auto.
      left. destruct (Tenant.plan tenant); [discriminate|reflexivity].
    + unfold tenant_update.
      rewrite Hid, Hfind.
      unfold ret. intros [= <- <-].
      apply post_notes_creates
        with (tenant := set_plan PRO (now env0) tenant); auto.
      * simpl. clear - Hfind.
        induction (tenants s) as [|a l IH]; simpl in *; [discriminate|].
        destruct (String.eqb (Tenant.id a) (Payload.tenantId user)) eqn:E.
        -- injection Hfind as ->. simpl. now rewrite E.
        -- rewrite E. auto.
Qed.

Lemma post_notes_plan_limit_witness :
  (wf Demo.db /\
   authenticate Demo.env2 Demo.fourth = inr (Demo.payload_of Demo.bob) /\
   prop (body_or_empty Demo.fourth) "title" = Some (JStr "a4") /\
   prop (body_or_empty Demo.fourth) "content" = Some (JStr "fourth") /\
   In Demo.acme (tenants Demo.db) /\
   Tenant.plan Demo.acme = FREE /\
   3 <= length (filter (in_tenant "t1") (notes Demo.db))) /\
  app Demo.env2 POST_notes Demo.fourth Demo.db
  = (json_status 402 (BError "FREE plan limit reached. Upgrade to PRO."),
     Demo.db) /\
  app Demo.env2 POST_notes Demo.fourth Demo.db_pro
  = (json_status 201
       (BNote (created_note Demo.env2 (Demo.payload_of Demo.bob) "a4" "fourth")),
     add_note (created_note Demo.env2 (Demo.payload_of Demo.bob) "a4" "fourth")
              Demo.db_pro).
Proof.
  assert (Hin : In Demo.acme (tenants Demo.db)) by (simpl; tauto).
  assert (Hfull : 3 <= length (filter (in_tenant "t1") (notes Demo.db)))
    by (vm_compute; lia).
  assert (Ht : "a4" <> "") by discriminate.
  assert (Hc : "fourth" <> "") by discriminate.
  assert (Hauth : authenticate Demo.env2 Demo.fourth
                  = inr (Demo.payload_of Demo.bob)) by reflexivity.
  destruct (post_notes_plan_limit Demo.env2 Demo.fourth Demo.db
              (Demo.payload_of Demo.bob) "a4" "fourth" Demo.acme
              demo_db_wf Hauth eq_refl Ht eq_refl Hc Hin eq_refl)
    as [Hfree [_ Hup]].
  split; [split; [exact demo_db_wf | repeat split; auto]|].
  split.
  - exact (Hfree eq_refl Hfull).
  - apply (Hup Demo.env1 (Demo.bearer Demo.alice None)
               (fst (app Demo.env1 (POST_upgrade "acme")
                         (Demo.bearer Demo.alice None) Demo.db))).
    + reflexivity.
    + reflexivity.
    + vm_compute. intuition discriminate.
    + vm_compute. tauto.
Defined.

(** C7.  Whenever POST /notes answers 201, the body is the created note, it
    is the one row added to the Note table (nothing else changes), its
    [tenantId] is the tenant of the token and its [ownerId] the user of the
    token, and its title and content are the strings of the body.  What the
    body says under any other name, [tenantId] and [ownerId] included, has
    no effect: two requests with the same Authorization header and the same
    title and content get the same answer and leave the same database. *)
Theorem post_notes_binds_identity `{Externals}
    (env : Env) (req : Request) (s : Store) (user : Payload.t) :
  authenticate env req = inr user ->
  (forall (r : Response) (s' : Store),
      app env POST_notes req s = (r, s') ->
      status r = 201 ->
      exists n : Note.t,
        payload r = BNote n /\
        s' = add_note n s /\
        Note.tenantId n = Payload.tenantId user /\
        Note.ownerId n = Some (Payload.userId user) /\
        prop (body_or_empty req) "title" = Some (JStr (Note.title n)) /\
        prop (body_or_empty req) "content" = Some (JStr (Note.content n)))
  /\
  (forall req' : Request,
      authorization req' = authorization req ->
      prop (body_or_empty req') "title" = prop (body_or_empty req) "title" ->
      prop (body_or_empty req') "content" = prop (body_or_empty req) "content" ->
      app env POST_notes req' s = app env POST_notes req s).
Proof.
  intros Hauth. split.
  - intros r s'.
    unfold app, authenticated. rewrite Hauth.
    unfold try_catch, post_notes, bind, tenant_findUnique, note_count, read,
      note_create, reply, ret, throw.
    repeat break_match; intros [= <- <-]; simpl; try discriminate.
    all: intros _; eexists; repeat split; eauto.
  - intros req' Ha Ht Hc.
    unfold app, authenticated, authenticate.
    rewrite Ha.
    unfold post_notes. now rewrite Ht, Hc.
Qed.

Lemma post_notes_binds_identity_witness :
  authenticate Demo.env2 Demo.forged = inr (Demo.payload_of Demo.bob) /\
  status (fst (app Demo.env2 POST_notes Demo.forged Demo.db_pro)) = 201 /\
  exists n : Note.t,
    payload (fst (app Demo.env2 POST_notes Demo.forged Demo.db_pro)) = BNote n /\
    snd (app Demo.env2 POST_notes Demo.forged Demo.db_pro)
    = add_note n Demo.db_pro /\
    Note.tenantId n = "t1" /\
    Note.ownerId n = Some "u2" /\
    prop (body_or_empty Demo.forged) "title" = Some (JStr (Note.title n)) /\
    prop (body_or_empty Demo.forged) "content" = Some (JStr (Note.content n)).
Proof.
  assert (Hauth : authenticate Demo.env2 Demo.forged
                  = inr (Demo.payload_of Demo.bob)) by reflexivity.
  split; [exact Hauth|].
  split; [reflexivity|].
  exact (proj1 (post_notes_binds_identity Demo.env2 Demo.forged Demo.db_pro
                  (Demo.payload_of Demo.bob) Hauth)
               (fst (app Demo.env2 POST_notes Demo.forged Demo.db_pro))
               (snd (app Demo.env2 POST_notes Demo.forged Demo.db_pro))
               eq_refl eq_refl).
Defined.

(* ===================================================================== *)
(** ** Every handler: errors change nothing, at most one write *)
(* ===================================================================== *)

Lemma note_create_atomic (env : Env) (title content : option json)
    (tenantId ownerId : string) :
  atomic (note_create env title content tenantId ownerId).
Proof.
  intros s. unfold note_create, throw. repeat break_match; auto.
Qed.

Lemma note_update_atomic (env : Env) (id : string)
    (title content : option json) :
  atomic (note_update env id title content).
Proof.
  intros s. unfold note_update. repeat break_match; auto.
Qed.

Lemma note_delete_atomic (id : string) : atomic (note_delete id).
Proof.
  intros s. unfold note_delete. repeat break_match; auto.
Qed.

Lemma tenant_update_atomic (env : Env) (id : string) (p : Plan) :
  atomic (tenant_update env id p).
Proof.
  intros s. unfold tenant_update. repeat break_match; auto.
Qed.

Lemma atomic_throw {A} (m : M A) (s s' : Store) :
  atomic m -> m s = (Throw, s') -> s' = s.
Proof.
  intros Ha E. specialize (Ha s). now rewrite E in Ha.
Qed.

Lemma atomic_reply {A} (m : M A) (s s' : Store) (r : Response) :
  atomic m -> m s = (Reply r, s') -> False.
Proof.
  intros Ha E. specialize (Ha s). now rewrite E in Ha.
Qed.

(** Uses the atomicity of the write call whose result is in the context. *)
Ltac write_result :=
  match goal with
  | E : note_create _ _ _ _ _ _ = (Throw, _) |- _ =>
      apply atomic_throw in E; [subst | apply note_create_atomic]
  | E : note_update _ _ _ _ _ = (Throw, _) |- _ =>
      apply atomic_throw in E; [subst | apply note_update_atomic]
  | E : note_delete _ _ = (Throw, _) |- _ =>
      apply atomic_throw in E; [subst | apply note_delete_atomic]
  | E : tenant_update _ _ _ _ = (Throw, _) |- _ =>
      apply atomic_throw in E; [subst | apply tenant_update_atomic]
  | E : note_create _ _ _ _ _ _ = (Reply _, _) |- _ =>
      exfalso; apply atomic_reply in E; [exact E | apply note_create_atomic]
  | E : note_update _ _ _ _ _ = (Reply _, _) |- _ =>
      exfalso; apply atomic_reply in E; [exact E | apply note_update_atomic]
  | E : note_delete _ _ = (Reply _, _) |- _ =>
      exfalso; apply atomic_reply in E; [exact E | apply note_delete_atomic]
  | E : tenant_update _ _ _ _ = (Reply _, _) |- _ =>
      exfalso; apply atomic_reply in E; [exact E | apply tenant_update_atomic]
  end.

(** Unfolds a route down to its database calls, leaving the write calls. *)
Ltac unfold_route :=
  unfold app, authenticated, requiring, requireRole, try_catch,
    post_login, post_notes, get_notes, get_note, put_note, delete_note,
    post_upgrade, bind, user_findUnique, bcrypt_compare_await,
    tenant_findUnique, tenant_findFirst, note_count, note_findMany,
    note_findFirst, read, reply, ret, throw.

(** A request leaves the database as it was or makes one write call. *)
Lemma app_writes_once `{Externals}
    (env : Env) (route : Route) (req : Request) (s : Store) :
  snd (app env route req s) = s \/
  one_write env s (snd (app env route req s)).
Proof.
  destruct route; unfold_route; repeat break_match;
    try write_result; simpl;
    try (left; reflexivity); right; eauto using one_write.
Qed.

(** C9.  For every route and request: if the status of the response is one
    of 400, 401, 402, 403, 404, 500, the database after the request is the
    database before it; and in every case the database after the request is
    either the one before it or the result of one successful write call on
    it. *)
Theorem errors_change_nothing `{Externals}
    (env : Env) (route : Route) (req : Request) (s : Store) :
  (In (status (fst (app env route req s))) error_status ->
   snd (app env route req s) = s)
  /\
  (snd (app env route req s) = s \/
   one_write env s (snd (app env route req s))).
Proof.
  split; [|apply app_writes_once].
  destruct route; unfold_route; repeat break_match;
    try write_result; simpl;
    try reflexivity; intros Herr; exfalso; intuition discriminate.
Qed.

Lemma errors_change_nothing_witness :
  In (status (fst (app Demo.env2 POST_notes Demo.fourth Demo.db))) error_status
  /\ snd (app Demo.env2 POST_notes Demo.fourth Demo.db) = Demo.db.
Proof.
  assert (Herr : In (status (fst (app Demo.env2 POST_notes Demo.fourth Demo.db)))
                    error_status) by (vm_compute; tauto).
  split; [exact Herr|].
  exact (proj1 (errors_change_nothing Demo.env2 POST_notes Demo.fourth Demo.db)
               Herr).
Defined.

(* ===================================================================== *)
(** ** The constraints are kept by every request *)
(* ===================================================================== *)

Lemma NoDup_map_filter {A} (key : A -> string) (f : A -> bool) (l : list A) :
  NoDup (map key l) -> NoDup (map key (filter f l)).
Proof.
  induction l as [|a l IH]; simpl; [auto|].
  intros Hnd. inversion Hnd as [|? ? Hnotin Hnd']; subst.
  destruct (f a); simpl; auto.
  constructor; auto.
  intros Hin. apply Hnotin.
  apply in_map_iff in Hin as [x [Hk Hx]].
  apply filter_In in Hx as [Hx _].
  rewrite <- Hk. now apply in_map.
Qed.

Lemma map_key_update {A} (key : A -> string) (c : A -> bool) (g : A -> A)
    (l : list A) :
  (forall x, key (g x) = key x) ->
  map key (map (fun x => if c x then g x else x) l) = map key l.
Proof.
  intros Hg. rewrite map_map. apply map_ext.
  intros x. destruct (c x); auto.
Qed.

Lemma note_create_wf (env : Env) (title content : option json)
    (tenantId ownerId : string) (s s' : Store) (n : Note.t) :
  wf s ->
  note_create env title content tenantId ownerId s = (Val n, s') ->
  wf s'.
Proof.
  intros [H1 H2 H3 H4 H5]. unfold note_create, throw.
  repeat break_match; intros [= <- <-]; try discriminate.
  constructor; simpl; auto.
  rewrite map_app. simpl.
  apply NoDup_app; auto.
  - repeat constructor. simpl. tauto.
  - intros a Ha [<- | []].
    apply (existsb_id Note.id) in Ha. congruence.
Qed.

Lemma note_update_wf (env : Env) (id : string) (title content : option json)
    (s s' : Store) (n : Note.t) :
  wf s -> note_update env id title content s = (Val n, s') -> wf s'.
Proof.
  intros Hwf. unfold note_update.
  repeat break_match; intros [= <- <-]; try discriminate; try assumption.
  all: destruct Hwf as [H1 H2 H3 H4 H5]; constructor; simpl; auto.
  all: now rewrite map_key_update.
Qed.

Lemma note_delete_wf (id : string) (s s' : Store) (n : Note.t) :
  wf s -> note_delete id s = (Val n, s') -> wf s'.
Proof.
  intros [H1 H2 H3 H4 H5]. unfold note_delete.
  repeat break_match; intros [= <- <-]; try discriminate.
  constructor; simpl; auto using NoDup_map_filter.
Qed.

Lemma tenant_update_wf (env : Env) (id : string) (p : Plan)
    (s s' : Store) (t : Tenant.t) :
  wf s -> tenant_update env id p s = (Val t, s') -> wf s'.
Proof.
  intros [H1 H2 H3 H4 H5]. unfold tenant_update.
  repeat break_match; intros [= <- <-]; try discriminate.
  constructor; simpl; auto; now rewrite map_key_update.
Qed.

Lemma one_write_wf (env : Env) (s s' : Store) :
  wf s -> one_write env s s' -> wf s'.
Proof.
  intros Hwf [].
  - eapply note_create_wf; eauto.
  - eapply note_update_wf; eauto.
  - eapply note_delete_wf; eauto.
  - eapply tenant_update_wf; eauto.
Qed.

Lemma app_wf `{Externals} (env : Env) (route : Route) (req : Request)
    (s : Store) :
  wf s -> wf (snd (app env route req s)).
Proof.
  intros Hwf.
  destruct (app_writes_once env route req s) as [-> | Hw]; auto.
  eapply one_write_wf; eauto.
Qed.

Lemma serve_wf `{Externals} (calls : list (Env * Route * Request)) (s : Store) :
  wf s -> wf (serve calls s).
Proof.
  revert s. induction calls as [|[[env route] req] calls IH]; simpl; auto.
  intros s Hwf. apply IH. now apply app_wf.
Qed.

(** The note writes leave the Tenant table alone. *)
Lemma note_create_tenants (env : Env) (title content : option json)
    (tenantId ownerId : string) (s s' : Store) (n : Note.t) :
  note_create env title content tenantId ownerId s = (Val n, s') ->
  tenants s' = tenants s.
Proof.
  unfold note_create, throw.
  repeat break_match; intros [= <- <-]; try discriminate; reflexivity.
Qed.

Lemma note_update_tenants (env : Env) (id : string)
    (title content : option json) (s s' : Store) (n : Note.t) :
  note_update env id title content s = (Val n, s') -> tenants s' = tenants s.
Proof.
  unfold note_update.
  repeat break_match; intros [= <- <-]; try discriminate; reflexivity.
Qed.

Lemma note_delete_tenants (id : string) (s s' : Store) (n : Note.t) :
  note_delete id s = (Val n, s') -> tenants s' = tenants s.
Proof.
  unfold note_delete.
  repeat break_match; intros [= <- <-]; try discriminate; reflexivity.
Qed.

(** No request takes a PRO tenant away or changes its row: the only write
    to the Tenant table is the upgrade of a tenant that is not PRO. *)
Lemma app_keeps_pro `{Externals} (env : Env) (route : Route) (req : Request)
    (s : Store) (t : Tenant.t) :
  wf s -> In t (tenants s) -> Tenant.plan t = PRO ->
  In t (tenants (snd (app env route req s))).
Proof.
  intros Hwf Hin Hpro.
  destruct route; unfold_route; repeat break_match;
    try write_result; simpl; auto;
    try match goal with
        | E : note_create _ _ _ _ _ _ = (Val _, _) |- _ =>
            now rewrite (note_create_tenants _ _ _ _ _ _ _ _ E)
        | E : note_update _ _ _ _ _ = (Val _, _) |- _ =>
            now rewrite (note_update_tenants _ _ _ _ _ _ _ E)
        | E : note_delete _ _ = (Val _, _) |- _ =>
            now rewrite (note_delete_tenants _ _ _ _ E)
        end.
  match goal with
  | F : find _ (tenants s) = Some ?t0,
    P : Plan_eqb (Tenant.plan ?t0) PRO = false,
    E : tenant_update _ _ _ _ = (Val _, _) |- _ =>
      apply find_some in F as [Hin0 _];
      revert E; unfold tenant_update;
      repeat break_match; intros [= <- <-]; try discriminate; simpl;
      apply in_map_iff; exists t; split; [|assumption];
      destruct (String.eqb (Tenant.id t) (Tenant.id t0)) eqn:Eid;
        [|reflexivity];
      apply String.eqb_eq in Eid;
      assert (t = t0) as ->
        by (apply (key_unique Tenant.id (tenants s));
            auto using wf_tenant_pkey);
      rewrite Hpro in P; discriminate
  end.
Qed.

Lemma serve_keeps_pro `{Externals} (calls : list (Env * Route * Request))
    (s : Store) (t : Tenant.t) :
  wf s -> In t (tenants s) -> Tenant.plan t = PRO ->
  In t (tenants (serve calls s)).
Proof.
  revert s. induction calls as [|[[env route] req] calls IH]; simpl; auto.
  intros s Hwf Hin Hpro. apply IH; auto using app_wf, app_keeps_pro.
Qed.

(* ===================================================================== *)
(** ** POST /tenants/:slug/upgrade *)
(* ===================================================================== *)

Lemma find_absent {A} (f : A -> bool) (l : list A) :
  (forall x, In x l -> f x = false) -> find f l = None.
Proof.
  intros Hf. destruct (find f l) as [x|] eqn:F; [|reflexivity].
  apply find_some in F as [Hin Hx]. rewrite (Hf x Hin) in Hx. discriminate.
Qed.

(** Past both middlewares, for an ADMIN. *)
Lemma upgrade_route `{Externals} (env : Env) (req : Request) (s : Store)
    (user : Payload.t) (slug : string) :
  authenticate env req = inr user ->
  Payload.role user = ADMIN ->
  app env (POST_upgrade slug) req s = try_catch (post_upgrade env user slug) s.
Proof.
  intros Hauth Hrole.
  unfold app, authenticated, requiring, requireRole.
  now rewrite Hauth, Hrole.
Qed.

(** C3.  POST /tenants/:slug/upgrade by a caller that [authenticate] accepts
    and whose role is ADMIN.  If no tenant has the slug, the answer is 404.
    If a tenant has the slug and its id is not the tenant id of the token,
    the answer is 403 and the database (so that tenant's plan) is as before.
    And whenever the answer is 200, the tenant with that slug is the
    caller's own. *)
Theorem upgrade_own_tenant_only `{Externals}
    (env : Env) (req : Request) (s : Store) (user : Payload.t)
    (slug : string) :
  wf s ->
  authenticate env req = inr user ->
  Payload.role user = ADMIN ->
  ((forall t : Tenant.t, In t (tenants s) -> Tenant.slug t <> slug) ->
   app env (POST_upgrade slug) req s
   = (json_status 404 (BError "Tenant not found"), s))
  /\
  (forall t : Tenant.t,
      In t (tenants s) -> Tenant.slug t = slug ->
      Tenant.id t <> Payload.tenantId user ->
      app env (POST_upgrade slug) req s
      = (json_status 403 (BError "Cannot upgrade another tenant"), s))
  /\
  (forall (r : Response) (s' : Store),
      app env (POST_upgrade slug) req s = (r, s') ->
      status r = 200 ->
      exists t : Tenant.t,
        In t (tenants s) /\ Tenant.slug t = slug /\
        Tenant.id t = Payload.tenantId user).
Proof.
  intros Hwf Hauth Hrole.
  rewrite (upgrade_route env req s user slug Hauth Hrole).
  unfold try_catch, post_upgrade, bind, tenant_findFirst, read.
  split; [|split].
  - intros Hnone.
    rewrite find_absent; [reflexivity|].
    intros x Hx. apply String.eqb_neq. auto.
  - intros t Hin <- Hother.
    rewrite find_key by auto using wf_tenant_slug.
    apply String.eqb_neq in Hother. now rewrite Hother.
  - intros r s'.
    destruct (find _ (tenants s)) as [t|] eqn:F;
      [|intros [= <- <-]; discriminate].
    apply find_some in F as [Hin Hslug]. apply String.eqb_eq in Hslug.
    destruct (String.eqb (Tenant.id t) (Payload.tenantId user)) eqn:Eid;
      [|intros [= <- <-]; discriminate].
    apply String.eqb_eq in Eid. intros _ _. exists t. auto.
Qed.

Lemma upgrade_own_tenant_only_witness :
  (wf Demo.db /\
   authenticate Demo.env1 (Demo.bearer Demo.alice None)
   = inr (Demo.payload_of Demo.alice) /\
   Payload.role (Demo.payload_of Demo.alice) = ADMIN /\
   In Demo.globex (tenants Demo.db) /\
   Tenant.id Demo.globex <> Payload.tenantId (Demo.payload_of Demo.alice)) /\
  app Demo.env1 (POST_upgrade "globex") (Demo.bearer Demo.alice None) Demo.db
  = (json_status 403 (BError "Cannot upgrade another tenant"), Demo.db).
Proof.
  assert (Hauth : authenticate Demo.env1 (Demo.bearer Demo.alice None)
                  = inr (Demo.payload_of Demo.alice)) by reflexivity.
  assert (Hin : In Demo.globex (tenants Demo.db)) by (simpl; tauto).
  assert (Hother : Tenant.id Demo.globex
                   <> Payload.tenantId (Demo.payload_of Demo.alice))
    by (simpl; discriminate).
  split; [split; [exact demo_db_wf | repeat split; auto]|].
  exact (proj1 (proj2 (upgrade_own_tenant_only Demo.env1
                         (Demo.bearer Demo.alice None) Demo.db
                         (Demo.payload_of Demo.alice) "globex"
                         demo_db_wf Hauth eq_refl))
               Demo.globex Hin eq_refl Hother).
Defined.

(** C4.  An ADMIN upgrading their own FREE tenant gets 200 "Upgraded to PRO"
    with the tenant, its plan now PRO; the database differs from the one
    before only in that row.  After that, whatever requests are served in
    between, an upgrade of the same slug by an ADMIN of the tenant gets 200
    "Already PRO" with that same PRO tenant and changes nothing: two upgrades
    in a row leave the database that one leaves. *)
Theorem upgrade_idempotent `{Externals}
    (env : Env) (req : Request) (s : Store) (user : Payload.t)
    (t : Tenant.t) :
  wf s ->
  authenticate env req = inr user ->
  Payload.role user = ADMIN ->
  In t (tenants s) ->
  Tenant.id t = Payload.tenantId user ->
  Tenant.plan t = FREE ->
  app env (POST_upgrade (Tenant.slug t)) req s
  = (json_ok (BUpgrade "Upgraded to PRO" (set_plan PRO (now env) t)),
     mkStore
       (map (fun x => if String.eqb (Tenant.id x) (Tenant.id t)
                      then set_plan PRO (now env) x else x) (tenants s))
       (users s) (notes s))
  /\
  In (set_plan PRO (now env) t)
     (tenants (snd (app env (POST_upgrade (Tenant.slug t)) req s)))
  /\
  (forall (calls : list (Env * Route * Request))
          (env' : Env) (req' : Request) (user' : Payload.t),
      authenticate env' req' = inr user' ->
      Payload.role user' = ADMIN ->
      Payload.tenantId user' = Tenant.id t ->
      app env' (POST_upgrade (Tenant.slug t)) req'
          (serve calls (snd (app env (POST_upgrade (Tenant.slug t)) req s)))
      = (json_ok (BUpgrade "Already PRO" (set_plan PRO (now env) t)),
         serve calls (snd (app env (POST_upgrade (Tenant.slug t)) req s)))).
Proof.
  intros Hwf Hauth Hrole Hin Hid Hfree.
  assert (Hfirst :
    app env (POST_upgrade (Tenant.slug t)) req s
    = (json_ok (BUpgrade "Upgraded to PRO" (set_plan PRO (now env) t)),
       mkStore
         (map (fun x => if String.eqb (Tenant.id x) (Tenant.id t)
                        then set_plan PRO (now env) x else x) (tenants s))
         (users s) (notes s))).
  { rewrite (upgrade_route env req s user _ Hauth Hrole).
    unfold try_catch, post_upgrade, bind, tenant_findFirst, read.
    rewrite find_key by auto using wf_tenant_slug.
    rewrite <- Hid, String.eqb_refl, Hfree. simpl.
    unfold tenant_update.
    rewrite find_key by auto using wf_tenant_pkey.
    reflexivity. }
  assert (Hup : In (set_plan PRO (now env) t)
                   (tenants (snd (app env (POST_upgrade (Tenant.slug t)) req s)))).
  { rewrite Hfirst. simpl. apply in_map_iff. exists t.
    now rewrite String.eqb_refl. }
  split; [exact Hfirst|]. split; [exact Hup|].
  intros calls env' req' user' Hauth' Hrole' Hid'.
  pose proof (app_wf env (POST_upgrade (Tenant.slug t)) req s Hwf) as Hwf1.
  set (s1 := snd (app env (POST_upgrade (Tenant.slug t)) req s)) in *.
  pose proof (serve_wf calls s1 Hwf1) as Hwf2.
  pose proof (serve_keeps_pro calls s1 _ Hwf1 Hup eq_refl) as Hup2.
  rewrite (upgrade_route env' req' _ user' _ Hauth' Hrole').
  unfold try_catch, post_upgrade, bind, tenant_findFirst, read.
  change (Tenant.slug t) with (Tenant.slug (set_plan PRO (now env) t)).
  rewrite find_key by auto using wf_tenant_slug.
  simpl. now rewrite Hid', String.eqb_refl.
Qed.

Lemma upgrade_idempotent_witness :
  (wf Demo.db /\
   authenticate Demo.env1 (Demo.bearer Demo.alice None)
   = inr (Demo.payload_of Demo.alice) /\
   Payload.role (Demo.payload_of Demo.alice) = ADMIN /\
   In Demo.acme (tenants Demo.db) /\
   Tenant.plan Demo.acme = FREE) /\
  app Demo.env2 (POST_upgrade "acme") (Demo.bearer Demo.alice None)
      (serve [(Demo.env2, POST_notes, Demo.fourth)] Demo.db_pro)
  = (json_ok (BUpgrade "Already PRO" (set_plan PRO 100 Demo.acme)),
     serve [(Demo.env2, POST_notes, Demo.fourth)] Demo.db_pro).
Proof.
  assert (Hauth : authenticate Demo.env1 (Demo.bearer Demo.alice None)
                  = inr (Demo.payload_of Demo.alice)) by reflexivity.
  assert (Hauth' : authenticate Demo.env2 (Demo.bearer Demo.alice None)
                   = inr (Demo.payload_of Demo.alice)) by reflexivity.
  assert (Hin : In Demo.acme (tenants Demo.db)) by (simpl; tauto).
  split; [split; [exact demo_db_wf | repeat split; auto]|].
  exact (proj2 (proj2 (upgrade_idempotent Demo.env1
                         (Demo.bearer Demo.alice None) Demo.db
                         (Demo.payload_of Demo.alice) Demo.acme
                         demo_db_wf Hauth eq_refl Hin eq_refl eq_refl))
               [(Demo.env2, POST_notes, Demo.fourth)]
               Demo.env2 (Demo.bearer Demo.alice None)
               (Demo.payload_of Demo.alice) Hauth' eq_refl eq_refl).
Defined.

(* ===================================================================== *)
(** ** POST /login *)
(* ===================================================================== *)

(** C5, as the claim states it, fails: a login request whose email no user
    has, sent without a password, is answered 400 and not 401. *)
Lemma login_without_password_is_400 :
  (forall u : User.t,
      In u (users Demo.db) -> User.email u <> "nobody@acme.test") /\
  prop (body_or_empty Demo.login_no_password) "email"
  = Some (JStr "nobody@acme.test") /\
  app Demo.env1 POST_login Demo.login_no_password Demo.db
  = (json_status 400 (BError "Email and password are required"), Demo.db) /\
  status (fst (app Demo.env1 POST_login Demo.login_no_password Demo.db))
  <> 401.
Proof.
  split; [|split; [|split]]; try reflexivity; try discriminate.
  intros u Hu. simpl in Hu.
  destruct Hu as [<- | [<- | [<- | []]]]; discriminate.
Qed.

(** C5, amended.  For a login request whose email and password are both
    non-empty strings: if no user has the email, or the user who has it has
    a password hash that the password does not match, the answer is 401
    with the one message "Invalid credentials", and the database is as
    before. *)
Theorem login_failures_alike `{Externals}
    (env : Env) (req : Request) (s : Store) (email password : string) :
  wf s ->
  prop (body_or_empty req) "email" = Some (JStr email) -> email <> "" ->
  prop (body_or_empty req) "password" = Some (JStr password) ->
  password <> "" ->
  (forall u : User.t, In u (users s) -> User.email u <> email) \/
  (exists u : User.t,
      In u (users s) /\ User.email u = email /\
      bcrypt_compare password (User.password u) = false) ->
  app env POST_login req s
  = (json_status 401 (BError "Invalid credentials"), s).
Proof.
  intros Hwf He Hene Hp Hpne Hcause.
  unfold app, try_catch, post_login, bind, user_findUnique,
    bcrypt_compare_await, read.
  rewrite He, Hp, !truthy_nonempty by assumption. simpl.
  destruct Hcause as [Hnone | [u [Hin [<- Hbad]]]].
  - rewrite find_absent; [reflexivity|].
    intros x Hx. apply String.eqb_neq. auto.
  - rewrite find_key by auto using wf_user_email.
    unfold ret. now rewrite Hbad.
Qed.

Lemma login_failures_alike_witness :
  (wf Demo.db /\
   prop (body_or_empty Demo.login_wrong) "email"
   = Some (JStr "admin@acme.test") /\
   prop (body_or_empty Demo.login_wrong) "password" = Some (JStr "guess") /\
   In Demo.alice (users Demo.db) /\
   bcrypt_compare "guess" (User.password Demo.alice) = false) /\
  app Demo.env1 POST_login Demo.login_wrong Demo.db
  = (json_status 401 (BError "Invalid credentials"), Demo.db) /\
  app Demo.env1 POST_login Demo.login_nobody Demo.db
  = (json_status 401 (BError "Invalid credentials"), Demo.db).
Proof.
  assert (Hin : In Demo.alice (users Demo.db)) by (simpl; tauto).
  assert (He : "admin@acme.test" <> "") by discriminate.
  assert (Hn : "nobody@acme.test" <> "") by discriminate.
  assert (Hg : "guess" <> "") by discriminate.
  assert (Hp : "password" <> "") by discriminate.
  split; [split; [exact demo_db_wf | repeat split; auto]|].
  split.
  - apply (login_failures_alike Demo.env1 Demo.login_wrong Demo.db
             "admin@acme.test" "guess" demo_db_wf eq_refl He eq_refl Hg).
    right. exists Demo.alice. repeat split; auto.
  - apply (login_failures_alike Demo.env1 Demo.login_nobody Demo.db
             "nobody@acme.test" "password" demo_db_wf eq_refl Hn eq_refl Hp).
    left. intros u Hu. simpl in Hu.
    destruct Hu as [<- | [<- | [<- | []]]]; discriminate.
Defined.

(** The type of the password can tell the two causes apart: with a password
    that is a number, an email that no user has is answered 401 and an
    email that a user has is answered 500, [bcrypt.compare] rejecting data
    that is not a string. *)
Remark login_password_type_tells :
  fst (app Demo.env1 POST_login
           (mkRequest None (Some [("email", JStr "nobody@acme.test");
                                  ("password", JNum 7)])) Demo.db)
  = json_status 401 (BError "Invalid credentials") /\
  fst (app Demo.env1 POST_login
           (mkRequest None (Some [("email", JStr "admin@acme.test");
                                  ("password", JNum 7)])) Demo.db)
  = internal_error.
Proof.
  split; reflexivity.
Qed.

Lemma find_related {A} (R : A -> A -> Prop) (f : A -> bool) (l1 l2 : list A) :
  Forall2 R l1 l2 ->
  (forall a b, R a b -> f a = f b) ->
  match find f l1, find f l2 with
  | Some a, Some b => R a b
  | None, None => True
  | _, _ => False
  end.
Proof.
  intros HR Hf. induction HR as [|a b l1 l2 Hab _ IH]; simpl; [exact I|].
  rewrite <- (Hf a b Hab). destruct (f a); auto.
Qed.

(** C6.  Whenever POST /login answers 200, a stored user has the email of
    the request and a hash that the password of the request matches, and
    the body is the token signed over that user's id, tenant id and role,
    together with a user object made of that user's id, email, role and
    tenant id; the database is as before.  And no response
    of POST /login carries a stored password hash: the response to a
    request is the same over any two User tables whose rows agree on id,
    email, role and tenant id and give the password of the request the same
    verdict, whatever the hashes are. *)
Theorem login_body_is_safe `{Externals}
    (env : Env) (req : Request) (s : Store) :
  (forall (r : Response) (s' : Store),
      app env POST_login req s = (r, s') ->
      status r = 200 ->
      exists (u : User.t) (p : string),
        In u (users s) /\
        prop (body_or_empty req) "email" = Some (JStr (User.email u)) /\
        prop (body_or_empty req) "password" = Some (JStr p) /\
        bcrypt_compare p (User.password u) = true /\
        payload r
        = BLogin (jwt_sign (Payload.mk (User.id u) (User.tenantId u)
                                       (User.role u)) (now env))
                 (SafeUser.mk (User.id u) (User.email u) (User.role u)
                              (User.tenantId u)) /\
        s' = s)
  /\
  (forall s2 : Store,
      Forall2 (same_public (prop (body_or_empty req) "password"))
              (users s) (users s2) ->
      fst (app env POST_login req s) = fst (app env POST_login req s2)).
Proof.
  split.
  - intros r s'.
    unfold app, try_catch, post_login, bind, user_findUnique,
      bcrypt_compare_await, read, reply, ret, throw.
    repeat break_match; intros [= <- <-]; simpl; try discriminate.
    intros _.
    match goal with
    | F : find _ (users _) = Some ?u,
      P : prop _ "password" = Some (JStr ?p),
      V : negb ?v = false |- _ =>
        apply find_some in F as [Hin He]; apply String.eqb_eq in He;
        apply negb_false_iff in V;
        exists u, p; subst; auto 10
    end.
  - intros s2 Hrel.
    unfold app, try_catch, post_login, bind, user_findUnique,
      bcrypt_compare_await, read, reply, ret, throw.
    destruct (negb (truthy (prop (body_or_empty req) "email"))
              || negb (truthy (prop (body_or_empty req) "password")));
      [reflexivity|].
    destruct (prop (body_or_empty req) "email") as [[| | |e]|];
      try reflexivity.
    pose proof (find_related _ (fun u => String.eqb (User.email u) e)
                  _ _ Hrel) as Hfind.
    simpl.
    destruct (find _ (users s)) as [u1|], (find _ (users s2)) as [u2|];
      try (exfalso; apply Hfind; intros a b [Hab _];
           now injection Hab as _ -> _ _);
      try reflexivity.
    assert (Hu : same_public (prop (body_or_empty req) "password") u1 u2).
    { apply Hfind. intros a b [Hab _]. now injection Hab as _ -> _ _. }
    destruct Hu as [Hsafe Hverdict].
    destruct (prop (body_or_empty req) "password") as [[| | |p]|];
      try reflexivity.
    rewrite (Hverdict p eq_refl).
    destruct (bcrypt_compare p (User.password u2)); simpl; [|reflexivity].
    rewrite Hsafe.
    injection Hsafe as -> _ -> ->. reflexivity.
Qed.

Lemma login_body_is_safe_witness :
  status (fst (app Demo.env1 POST_login Demo.login_alice Demo.db)) = 200 /\
  (exists (u : User.t) (p : string),
      In u (users Demo.db) /\
      prop (body_or_empty Demo.login_alice) "email"
      = Some (JStr (User.email u)) /\
      prop (body_or_empty Demo.login_alice) "password" = Some (JStr p) /\
      bcrypt_compare p (User.password u) = true /\
      payload (fst (app Demo.env1 POST_login Demo.login_alice Demo.db))
      = BLogin (jwt_sign (Payload.mk (User.id u) (User.tenantId u)
                                     (User.role u)) (now Demo.env1))
               (SafeUser.mk (User.id u) (User.email u) (User.role u)
                            (User.tenantId u)) /\
      snd (app Demo.env1 POST_login Demo.login_alice Demo.db) = Demo.db) /\
  fst (app Demo.env1 POST_login Demo.login_alice Demo.db)
  = fst (app Demo.env1 POST_login Demo.login_alice Demo.db_rehashed).
Proof.
  split; [reflexivity|].
  split.
  - exact (proj1 (login_body_is_safe Demo.env1 Demo.login_alice Demo.db)
                 (fst (app Demo.env1 POST_login Demo.login_alice Demo.db))
                 (snd (app Demo.env1 POST_login Demo.login_alice Demo.db))
                 eq_refl eq_refl).
  - apply (proj2 (login_body_is_safe Demo.env1 Demo.login_alice Demo.db)
                 Demo.db_rehashed).
    simpl. repeat constructor; intros p [= <-]; reflexivity.
Defined.

(* ===================================================================== *)
(** ** PUT /notes/:id *)
(* ===================================================================== *)


(** The update call on a stored row, with a field in [data] and with
    none. *)
Lemma note_update_written (env : Env) (s : Store) (old : Note.t)
    (title content : option json) (t c : string) :
  wf s -> In old (notes s) ->
  title <> None \/ content <> None ->
  update_text (Note.title old) title = Some t ->
  update_text (Note.content old) content = Some c ->
  note_update env (Note.id old) title content s
  = (Val (set_texts t c (now env) old),
     mkStore (tenants s) (users s)
       (map (fun x => if String.eqb (Note.id x) (Note.id old)
                      then set_texts t c (now env) x else x)
            (notes s))).
Proof.
  intros Hwf Hin Hsome Ht Hc. unfold note_update.
  rewrite find_key by auto using wf_note_pkey.
  rewrite Ht, Hc.
  destruct title, content; try reflexivity.
  destruct Hsome as [Hn | Hn]; contradiction.
Qed.

Lemma note_update_empty (env : Env) (s : Store) (old : Note.t) :
  wf s -> In old (notes s) ->
  note_update env (Note.id old) None None s = (Val old, s).
Proof.
  intros Hwf Hin. unfold note_update.
  now rewrite find_key by auto using wf_note_pkey.
Qed.



(* ===================================================================== *)
(** ** authenticate *)
(* ===================================================================== *)

Lemma split_no_sep (sep : ascii) (s : string) :
  has_char sep s = false -> split sep s = [s].
Proof.
  induction s as [|c s IH]; simpl; [reflexivity|].
  intros Hc. apply orb_false_iff in Hc as [Hc Hs].
  now rewrite Hc, (IH Hs).
Qed.

Lemma split_head (sep : ascii) (a b : string) :
  has_char sep a = false ->
  split sep (a ++ String sep b) = a :: split sep b.
Proof.
  induction a as [|c a IH]; simpl.
  - intros _. now rewrite Ascii.eqb_refl.
  - intros Hc. apply orb_false_iff in Hc as [Hc Ha].
    now rewrite Hc, (IH Ha).
Qed.

(** C10.  [authenticate] looks only at the second of the segments that the
    spaces cut the Authorization header into.  If that segment is a token
    that verifies, the request is accepted with the payload of the token,
    whatever the first segment is: so it is for a header made of any word
    without a space, a space and the token, with or without a space and
    more behind it.  Two headers with the same second segment are treated
    alike.  No header, a header without a space, and a header that ends at
    its first space are answered 401 "Missing token". *)
Theorem authenticate_second_segment `{Externals} (env : Env) :
  (forall (req : Request) (h tok : string) (p : Payload.t),
      authorization req = Some h ->
      nth_error (split space h) 1 = Some tok ->
      jwt_verify tok (now env) = Some p ->
      authenticate env req = inr p)
  /\
  (forall scheme tok rest : string,
      has_char space scheme = false ->
      has_char space tok = false ->
      nth_error (split space (scheme ++ " " ++ tok)) 1 = Some tok /\
      nth_error (split space (scheme ++ " " ++ tok ++ " " ++ rest)) 1
      = Some tok)
  /\
  (forall (req1 req2 : Request) (h1 h2 : string),
      authorization req1 = Some h1 ->
      authorization req2 = Some h2 ->
      nth_error (split space h1) 1 = nth_error (split space h2) 1 ->
      authenticate env req1 = authenticate env req2)
  /\
  (forall req : Request,
      authorization req = None \/
      (exists h, authorization req = Some h /\ has_char space h = false) ->
      authenticate env req = inl (json_status 401 (BError "Missing token")))
  /\
  (forall (req : Request) (scheme : string),
      authorization req = Some (scheme ++ " ") ->
      has_char space scheme = false ->
      authenticate env req = inl (json_status 401 (BError "Missing token"))).
Proof.
  repeat split.
  - intros req h tok p Hh Hseg Hok.
    unfold authenticate. rewrite Hh, Hseg.
    destruct (String.eqb tok "") eqn:E.
    + apply String.eqb_eq in E. subst tok.
      rewrite jwt_verify_nonempty in Hok. discriminate.
    + now rewrite Hok.
  - change (scheme ++ " " ++ tok) with (scheme ++ String space tok).
    rewrite split_head, split_no_sep by assumption. reflexivity.
  - change (scheme ++ " " ++ tok ++ " " ++ rest)
      with (scheme ++ String space (tok ++ String space rest)).
    rewrite !split_head by assumption. reflexivity.
  - intros req1 req2 h1 h2 H1 H2 Hseg.
    unfold authenticate. now rewrite H1, H2, Hseg.
  - intros req [Hnone | [h [Hh Hns]]]; unfold authenticate.
    + now rewrite Hnone.
    + now rewrite Hh, split_no_sep.
  - intros req scheme Hh Hns.
    unfold authenticate. rewrite Hh.
    change (scheme ++ " ") with (scheme ++ String space "").
    now rewrite split_head.
Qed.

Lemma authenticate_second_segment_witness :
  (nth_error (split space "Token jwt.u1 trailing") 1 = Some "jwt.u1" /\
   jwt_verify "jwt.u1" (now Demo.env1) = Some (Demo.payload_of Demo.alice)) /\
  authenticate Demo.env1 (mkRequest (Some "Token jwt.u1 trailing") None)
  = inr (Demo.payload_of Demo.alice).
Proof.
  split; [split; reflexivity|].
  exact (proj1 (authenticate_second_segment Demo.env1)
               (mkRequest (Some "Token jwt.u1 trailing") None)
               "Token jwt.u1 trailing" "jwt.u1" (Demo.payload_of Demo.alice)
               eq_refl eq_refl eq_refl).
Defined.

(* ===================================================================== *)
(** ** What a successful write call does *)
(* ===================================================================== *)

Lemma note_create_inv (env : Env) (title content : option json)
    (tenantId ownerId : string) (s s' : Store) (n : Note.t) :
  note_create env title content tenantId ownerId s = (Val n, s') ->
  exists t c : string,
    title = Some (JStr t) /\ content = Some (JStr c) /\
    n = Note.mk (newId env) t c tenantId (Some ownerId) (now env) (now env) /\
    s' = add_note n s /\
    ~ In (newId env) (map Note.id (notes s)) /\
    In tenantId (map Tenant.id (tenants s)) /\
    In ownerId (map User.id (users s)).
Proof.
  unfold note_create, throw.
  repeat break_match; intros [= <- <-]; try discriminate.
  do 2 eexists. repeat split.
  - intros Hin. apply (existsb_id Note.id) in Hin. congruence.
  - apply (existsb_id Tenant.id). now apply negb_false_iff.
  - apply (existsb_id User.id). now apply negb_false_iff.
Qed.

Lemma note_update_inv (env : Env) (id : string) (title content : option json)
    (s s' : Store) (n : Note.t) :
  note_update env id title content s = (Val n, s') ->
  s' = s \/
  exists t c : string,
    s' = mkStore (tenants s) (users s)
           (map (fun x => if String.eqb (Note.id x) id
                          then set_texts t c (now env) x else x) (notes s)).
Proof.
  unfold note_update.
  repeat break_match; intros [= <- <-]; try discriminate; eauto.
Qed.

Lemma note_delete_inv (id : string) (s s' : Store) (n : Note.t) :
  note_delete id s = (Val n, s') ->
  find (fun x => String.eqb (Note.id x) id) (notes s) = Some n /\
  s' = mkStore (tenants s) (users s)
         (filter (fun x => negb (String.eqb (Note.id x) id)) (notes s)).
Proof.
  unfold note_delete.
  repeat break_match; intros [= <- <-]; try discriminate. auto.
Qed.

Lemma tenant_update_inv (env : Env) (id : string) (p : Plan)
    (s s' : Store) (t : Tenant.t) :
  tenant_update env id p s = (Val t, s') ->
  exists old : Tenant.t,
    find (fun x => String.eqb (Tenant.id x) id) (tenants s) = Some old /\
    t = set_plan p (now env) old /\
    s' = mkStore
           (map (fun x => if String.eqb (Tenant.id x) id
                          then set_plan p (now env) x else x) (tenants s))
           (users s) (notes s).
Proof.
  unfold tenant_update.
  repeat break_match; intros [= <- <-]; try discriminate.
  eexists. repeat split; eauto.
Qed.

(** The row found under an id and a tenant, where ids are unique. *)
Lemma note_findFirst_found (s : Store) (id tenantId : string) (n : Note.t) :
  wf s -> In n (notes s) -> Note.id n = id -> Note.tenantId n = tenantId ->
  find (fun x => String.eqb (Note.id x) id && in_tenant tenantId x) (notes s)
  = Some n.
Proof.
  intros Hwf Hin Hid Hten.
  destruct (find _ (notes s)) as [m|] eqn:F.
  - apply find_some in F as [Hm Hp].
    apply andb_true_iff in Hp as [Hmid _]. apply String.eqb_eq in Hmid.
    f_equal. apply (key_unique Note.id (notes s)); auto using wf_note_pkey.
    congruence.
  - apply (find_none _ _ F) in Hin. unfold in_tenant in Hin.
    rewrite Hid, Hten, !String.eqb_refl in Hin. discriminate.
Qed.

Lemma note_findFirst_none (s : Store) (id tenantId : string) :
  (forall n, In n (notes s) -> Note.id n = id -> Note.tenantId n <> tenantId) ->
  find (fun x => String.eqb (Note.id x) id && in_tenant tenantId x) (notes s)
  = None.
Proof.
  intros Hnone. apply find_absent. intros n Hn.
  destruct (String.eqb (Note.id n) id) eqn:Eid; [|reflexivity].
  apply String.eqb_eq in Eid. simpl. apply String.eqb_neq. auto.
Qed.

(* ===================================================================== *)
(** ** GET /notes *)
(* ===================================================================== *)

Lemma insert_desc_perm (n : Note.t) (l : list Note.t) :
  Permutation (n :: l) (insert_desc n l).
Proof.
  induction l as [|m l IH]; simpl; [reflexivity|].
  destruct (Z.ltb _ _); [reflexivity|].
  rewrite perm_swap. now constructor.
Qed.

Lemma sort_desc_perm (l : list Note.t) : Permutation l (sort_desc l).
Proof.
  induction l as [|n l IH]; simpl; [constructor|].
  rewrite <- insert_desc_perm. now constructor.
Qed.

Lemma insert_desc_sorted (n : Note.t) (l : list Note.t) :
  StronglySorted newer_first l -> StronglySorted newer_first (insert_desc n l).
Proof.
  induction l as [|m l IH]; simpl; intros Hs.
  - repeat constructor.
  - inversion Hs as [|? ? Hl Hm]; subst.
    destruct (Z.ltb (Note.createdAt m) (Note.createdAt n)) eqn:E.
    + apply Z.ltb_lt in E.
      constructor; [assumption|].
      constructor; [unfold newer_first; lia|].
      eapply Forall_impl; [|exact Hm].
      unfold newer_first. intros x Hx. lia.
    + apply Z.ltb_ge in E.
      constructor; [auto|].
      eapply Permutation_Forall; [apply insert_desc_perm|].
      constructor; [exact E | assumption].
Qed.

Lemma sort_desc_sorted (l : list Note.t) :
  StronglySorted newer_first (sort_desc l).
Proof.
  induction l as [|n l IH]; simpl; [constructor|].
  now apply insert_desc_sorted.
Qed.

(** X1.  GET /notes with a token that [authenticate] accepts answers 200
    with a list that holds exactly the stored notes of the caller's tenant,
    each as often as it is stored, ordered by [createdAt] with the newest
    first; no note of another tenant is in it and the database is as
    before. *)
Theorem get_notes_lists_own_tenant `{Externals}
    (env : Env) (req : Request) (s : Store) (user : Payload.t) :
  authenticate env req = inr user ->
  exists l : list Note.t,
    app env GET_notes req s = (json_ok (BNotes l), s) /\
    Permutation (filter (in_tenant (Payload.tenantId user)) (notes s)) l /\
    StronglySorted newer_first l /\
    (forall n : Note.t,
        In n l <->
        In n (notes s) /\ Note.tenantId n = Payload.tenantId user).
Proof.
  intros Hauth.
  exists (sort_desc (filter (in_tenant (Payload.tenantId user)) (notes s))).
  split; [|split; [|split]].
  - unfold app, authenticated. now rewrite Hauth.
  - apply sort_desc_perm.
  - apply sort_desc_sorted.
  - intros n.
    rewrite <- (Permutation_in' (eq_refl n) (sort_desc_perm _)).
    rewrite filter_In. unfold in_tenant. now rewrite String.eqb_eq.
Qed.

Lemma get_notes_lists_own_tenant_witness :
  authenticate Demo.env1 (Demo.bearer Demo.bob None)
  = inr (Demo.payload_of Demo.bob) /\
  exists l : list Note.t,
    app Demo.env1 GET_notes (Demo.bearer Demo.bob None) Demo.db
    = (json_ok (BNotes l), Demo.db) /\
    Permutation (filter (in_tenant "t1") (notes Demo.db)) l /\
    StronglySorted newer_first l /\
    (forall n : Note.t,
        In n l <-> In n (notes Demo.db) /\ Note.tenantId n = "t1").
Proof.
  assert (Hauth : authenticate Demo.env1 (Demo.bearer Demo.bob None)
                  = inr (Demo.payload_of Demo.bob)) by reflexivity.
  split; [exact Hauth|].
  exact (get_notes_lists_own_tenant Demo.env1 (Demo.bearer Demo.bob None)
           Demo.db (Demo.payload_of Demo.bob) Hauth).
Defined.

(* ===================================================================== *)
(** ** DELETE /notes/:id *)
(* ===================================================================== *)

(** X2.  DELETE /notes/:id with a token that [authenticate] accepts.  If a
    note with that id is stored in the caller's tenant, whoever owns it, the
    answer is 204 with no body and exactly that note is gone: the notes
    left are the stored notes other than it, in their order, and tenants
    and users are as before.  If no note with that id is stored in the
    caller's tenant (there is none, or it is another tenant's), the answer
    is 404 and nothing changes. *)
Theorem delete_note_removes_one `{Externals}
    (env : Env) (req : Request) (s : Store) (user : Payload.t) (id : string) :
  wf s ->
  authenticate env req = inr user ->
  (forall existing : Note.t,
      In existing (notes s) ->
      Note.id existing = id ->
      Note.tenantId existing = Payload.tenantId user ->
      app env (DELETE_note id) req s
      = (json_status 204 BEmpty,
         mkStore (tenants s) (users s)
           (filter (fun x => negb (String.eqb (Note.id x) id)) (notes s)))
      /\
      (forall n : Note.t,
          In n (notes (snd (app env (DELETE_note id) req s))) <->
          In n (notes s) /\ n <> existing))
  /\
  ((forall n : Note.t,
       In n (notes s) -> Note.id n = id ->
       Note.tenantId n <> Payload.tenantId user) ->
   app env (DELETE_note id) req s = (json_status 404 (BError "Not found"), s)).
Proof.
  intros Hwf Hauth. split.
  - intros existing Hin Hid Hten.
    assert (Happ :
      app env (DELETE_note id) req s
      = (json_status 204 BEmpty,
         mkStore (tenants s) (users s)
           (filter (fun x => negb (String.eqb (Note.id x) id)) (notes s)))).
    { unfold app, authenticated. rewrite Hauth.
      unfold try_catch, delete_note, bind, note_findFirst, read.
      rewrite (note_findFirst_found s id _ existing) by assumption.
      unfold note_delete.
      rewrite find_key by auto using wf_note_pkey. now rewrite Hid. }
    split; [exact Happ|].
    intros n. rewrite Happ. simpl. rewrite filter_In.
    split.
    + intros [Hn Hne]. split; [assumption|].
      intros ->. rewrite Hid, String.eqb_refl in Hne. discriminate.
    + intros [Hn Hne]. split; [assumption|].
      apply negb_true_iff, String.eqb_neq. intros Heq.
      apply Hne. apply (key_unique Note.id (notes s));
        auto using wf_note_pkey. congruence.
  - intros Hnone.
    unfold app, authenticated. rewrite Hauth.
    unfold try_catch, delete_note, bind, note_findFirst, read.
    now rewrite note_findFirst_none.
Qed.

Lemma delete_note_removes_one_witness :
  (wf Demo.db /\
   authenticate Demo.env1 (Demo.bearer Demo.bob None)
   = inr (Demo.payload_of Demo.bob) /\
   In Demo.note_a1 (notes Demo.db) /\
   Note.ownerId Demo.note_a1
   <> Some (Payload.userId (Demo.payload_of Demo.bob))) /\
  app Demo.env1 (DELETE_note "n1") (Demo.bearer Demo.bob None) Demo.db
  = (json_status 204 BEmpty,
     mkStore (tenants Demo.db) (users Demo.db)
       [Demo.note_a2; Demo.note_a3; Demo.note_g1]).
Proof.
  assert (Hauth : authenticate Demo.env1 (Demo.bearer Demo.bob None)
                  = inr (Demo.payload_of Demo.bob)) by reflexivity.
  assert (Hin : In Demo.note_a1 (notes Demo.db)) by (simpl; tauto).
  assert (Hown : Note.ownerId Demo.note_a1
                 <> Some (Payload.userId (Demo.payload_of Demo.bob)))
    by (simpl; discriminate).
  split; [split; [exact demo_db_wf | repeat split; auto]|].
  exact (proj1 (proj1 (delete_note_removes_one Demo.env1
                         (Demo.bearer Demo.bob None) Demo.db
                         (Demo.payload_of Demo.bob) "n1" demo_db_wf Hauth)
                      Demo.note_a1 Hin eq_refl eq_refl)).
Defined.

(* ===================================================================== *)
(** ** authenticate and requireRole, further *)
(* ===================================================================== *)

(** What [authenticate] answers itself is one of two responses. *)
Lemma authenticate_answers `{Externals} (env : Env) (req : Request)
    (r : Response) :
  authenticate env req = inl r ->
  r = json_status 401 (BError "Missing token") \/
  r = json_status 401 (BError "Invalid token").
Proof.
  unfold authenticate.
  destruct (nth_error _ 1) as [tok|]; [|intros [= <-]; now left].
  destruct (String.eqb tok ""); [intros [= <-]; now left|].
  destruct (jwt_verify _ _); [discriminate|intros [= <-]; now right].
Qed.

(** X3.  What [authenticate] does is decided by the second segment of the
    Authorization header.  It lets a request through with a payload exactly
    when the header is there and its second segment is not empty and
    verifies to that payload; it answers 401 "Invalid token" exactly when
    the header is there and its second segment is not empty and does not
    verify; it answers 401 "Missing token" exactly when there is no such
    segment (no header, no second segment, or an empty one).  It answers
    nothing else. *)
Theorem authenticate_only_verified `{Externals} (env : Env) (req : Request) :
  (forall p : Payload.t,
      authenticate env req = inr p <->
      exists h tok : string,
        authorization req = Some h /\
        nth_error (split space h) 1 = Some tok /\
        tok <> "" /\
        jwt_verify tok (now env) = Some p)
  /\
  (authenticate env req = inl (json_status 401 (BError "Invalid token")) <->
   exists h tok : string,
     authorization req = Some h /\
     nth_error (split space h) 1 = Some tok /\
     tok <> "" /\
     jwt_verify tok (now env) = None)
  /\
  (authenticate env req = inl (json_status 401 (BError "Missing token")) <->
   ~ exists h tok : string,
       authorization req = Some h /\
       nth_error (split space h) 1 = Some tok /\
       tok <> "")
  /\
  (forall r : Response,
      authenticate env req = inl r ->
      r = json_status 401 (BError "Missing token") \/
      r = json_status 401 (BError "Invalid token")).
Proof.
  split; [|split; [|split; [|apply authenticate_answers]]].
  all: unfold authenticate.
  all: destruct (authorization req) as [h|]; cbv beta iota zeta.
  all: try (destruct (nth_error (split space h) 1) as [tok|] eqn:Hseg;
            [destruct (String.eqb tok "") eqn:E;
             [apply String.eqb_eq in E
             |apply String.eqb_neq in E;
              destruct (jwt_verify tok (now env)) as [q|] eqn:V]|]).
  all: try (change (nth_error (split space "") 1) with (@None string);
            cbv beta iota).
  all: try intros p.
  all: split; intros Hyp.
  all: try discriminate Hyp.
  all: try (destruct Hyp as (h' & tok' & Hh & Hs & Hne & Hv);
            try discriminate Hh; injection Hh as <-;
            rewrite Hseg in Hs; try discriminate Hs; injection Hs as <-;
            congruence).
  all: try (injection Hyp as <-; exists h, tok; auto).
  all: try (exists h, tok; auto).
  all: try (intros (h' & tok' & Hh & Hs & Hne);
            try discriminate Hh; injection Hh as <-;
            rewrite Hseg in Hs; try discriminate Hs; injection Hs as <-;
            congruence).
  all: try reflexivity.
  all: try (exfalso; apply Hyp; exists h, tok; auto).
Qed.

(** X4.  Two spaces between the scheme and the token are one too many: for
    a header made of a word without a space, two spaces and anything, a
    token that verifies included, the second segment is empty and the
    answer is 401 "Missing token". *)
Theorem authenticate_double_space `{Externals}
    (env : Env) (req : Request) (scheme rest : string) :
  has_char space scheme = false ->
  authorization req = Some (scheme ++ "  " ++ rest) ->
  authenticate env req = inl (json_status 401 (BError "Missing token")).
Proof.
  intros Hns Hh. unfold authenticate. rewrite Hh.
  change (scheme ++ "  " ++ rest)
    with (scheme ++ String space (String space rest)).
  rewrite split_head by assumption.
  reflexivity.
Qed.

Lemma authenticate_double_space_witness :
  (has_char space "Bearer" = false /\
   jwt_verify "jwt.u1" (now Demo.env1) = Some (Demo.payload_of Demo.alice)) /\
  authenticate Demo.env1 (mkRequest (Some "Bearer  jwt.u1") None)
  = inl (json_status 401 (BError "Missing token")).
Proof.
  split; [split; reflexivity|].
  exact (authenticate_double_space Demo.env1
           (mkRequest (Some "Bearer  jwt.u1") None) "Bearer" "jwt.u1"
           eq_refl eq_refl).
Defined.

(** X5.  POST /tenants/:slug/upgrade is for ADMIN only, and the role is
    looked at before the slug: with a token whose role is not ADMIN the
    answer is 403 "Forbidden" and nothing changes, whether or not a tenant
    has the slug and whoever's it is.  The 401 "Unauthorized" of
    [requireRole] is never the answer of the route, [authenticate] running
    before it. *)
Theorem upgrade_requires_admin `{Externals}
    (env : Env) (req : Request) (s : Store) (slug : string) :
  (forall user : Payload.t,
      authenticate env req = inr user ->
      Payload.role user <> ADMIN ->
      app env (POST_upgrade slug) req s
      = (json_status 403 (BError "Forbidden"), s))
  /\
  payload (fst (app env (POST_upgrade slug) req s)) <> BError "Unauthorized".
Proof.
  split.
  - intros user Hauth Hrole.
    unfold app, authenticated, requiring, requireRole. rewrite Hauth.
    destruct (Payload.role user); [contradiction|reflexivity].
  - destruct (authenticate env req) as [r|user] eqn:Hauth.
    + unfold app, authenticated. rewrite Hauth. simpl.
      destruct (authenticate_answers env req r Hauth) as [-> | ->];
        discriminate.
    + unfold_route. rewrite Hauth.
      repeat break_match; try write_result; simpl; discriminate.
Qed.

Lemma upgrade_requires_admin_witness :
  (authenticate Demo.env1 (Demo.bearer Demo.bob None)
   = inr (Demo.payload_of Demo.bob) /\
   Payload.role (Demo.payload_of Demo.bob) <> ADMIN) /\
  app Demo.env1 (POST_upgrade "acme") (Demo.bearer Demo.bob None) Demo.db
  = (json_status 403 (BError "Forbidden"), Demo.db).
Proof.
  assert (Hauth : authenticate Demo.env1 (Demo.bearer Demo.bob None)
                  = inr (Demo.payload_of Demo.bob)) by reflexivity.
  assert (Hrole : Payload.role (Demo.payload_of Demo.bob) <> ADMIN)
    by (simpl; discriminate).
  split; [split; assumption|].
  exact (proj1 (upgrade_requires_admin Demo.env1 (Demo.bearer Demo.bob None)
                  Demo.db "acme")
               (Demo.payload_of Demo.bob) Hauth Hrole).
Defined.

Lemma authenticate_only_verified_witness :
  authenticate Demo.env1 (Demo.bearer Demo.alice None)
  = inr (Demo.payload_of Demo.alice) /\
  exists h tok : string,
    authorization (Demo.bearer Demo.alice None) = Some h /\
    nth_error (split space h) 1 = Some tok /\
    tok <> "" /\
    jwt_verify tok (now Demo.env1) = Some (Demo.payload_of Demo.alice).
Proof.
  assert (Hauth : authenticate Demo.env1 (Demo.bearer Demo.alice None)
                  = inr (Demo.payload_of Demo.alice)) by reflexivity.
  split; [exact Hauth|].
  exact (proj1 (proj1 (authenticate_only_verified Demo.env1
                         (Demo.bearer Demo.alice None))
                      (Demo.payload_of Demo.alice)) Hauth).
Defined.

(* ===================================================================== *)
(** ** POST /login, further *)
(* ===================================================================== *)

(** X6.  POST /login with the email of a stored user and a password that
    matches the stored hash, both non-empty strings, answers 200 with the
    token signed over that user's id, tenant id and role and with the safe
    view of that user; the database is as before. *)
Theorem login_accepts_valid `{Externals}
    (env : Env) (req : Request) (s : Store) (u : User.t) (password : string) :
  wf s ->
  In u (users s) ->
  prop (body_or_empty req) "email" = Some (JStr (User.email u)) ->
  User.email u <> "" ->
  prop (body_or_empty req) "password" = Some (JStr password) ->
  password <> "" ->
  bcrypt_compare password (User.password u) = true ->
  app env POST_login req s
  = (json_ok (BLogin (jwt_sign (Payload.mk (User.id u) (User.tenantId u)
                                           (User.role u)) (now env))
                     (toSafeUser u)),
     s).
Proof.
  intros Hwf Hin He Hene Hp Hpne Hok.
  unfold app, try_catch, post_login, bind, user_findUnique,
    bcrypt_compare_await, read.
  rewrite He, Hp, !truthy_nonempty by assumption. simpl.
  rewrite find_key by auto using wf_user_email.
  unfold ret. now rewrite Hok.
Qed.

Lemma login_accepts_valid_witness :
  (wf Demo.db /\
   In Demo.alice (users Demo.db) /\
   prop (body_or_empty Demo.login_alice) "email"
   = Some (JStr (User.email Demo.alice)) /\
   prop (body_or_empty Demo.login_alice) "password" = Some (JStr "password") /\
   bcrypt_compare "password" (User.password Demo.alice) = true) /\
  app Demo.env1 POST_login Demo.login_alice Demo.db
  = (json_ok (BLogin "jwt.u1" (SafeUser.mk "u1" "admin@acme.test" ADMIN "t1")),
     Demo.db).
Proof.
  assert (Hin : In Demo.alice (users Demo.db)) by (simpl; tauto).
  assert (He : User.email Demo.alice <> "") by (simpl; discriminate).
  assert (Hp : "password" <> "") by discriminate.
  split; [split; [exact demo_db_wf | repeat split; auto]|].
  exact (login_accepts_valid Demo.env1 Demo.login_alice Demo.db Demo.alice
           "password" demo_db_wf Hin eq_refl He eq_refl Hp eq_refl).
Defined.

(** X7.  The token of a login opens the routes behind [authenticate].  For
    a login with the email of a stored user and a matching password: if the
    token signed for that user has no space in it and verifies, at the time
    of a later request, to the payload it was signed over, then the token in
    the body of the login, sent in the header ["Bearer "] followed by the
    token, is let through with that user's id, tenant id and role, and
    GET /notes with it lists the notes of that user's tenant. *)
Theorem login_token_authenticates `{Externals}
    (env env' : Env) (req req' : Request) (s : Store) (u : User.t)
    (password : string) :
  wf s ->
  In u (users s) ->
  prop (body_or_empty req) "email" = Some (JStr (User.email u)) ->
  User.email u <> "" ->
  prop (body_or_empty req) "password" = Some (JStr password) ->
  password <> "" ->
  bcrypt_compare password (User.password u) = true ->
  has_char space
    (jwt_sign (Payload.mk (User.id u) (User.tenantId u) (User.role u))
              (now env)) = false ->
  jwt_verify
    (jwt_sign (Payload.mk (User.id u) (User.tenantId u) (User.role u))
              (now env)) (now env')
  = Some (Payload.mk (User.id u) (User.tenantId u) (User.role u)) ->
  exists token : string,
    app env POST_login req s = (json_ok (BLogin token (toSafeUser u)), s) /\
    (authorization req' = Some ("Bearer " ++ token) ->
     authenticate env' req'
     = inr (Payload.mk (User.id u) (User.tenantId u) (User.role u)) /\
     exists l : list Note.t,
       app env' GET_notes req' s = (json_ok (BNotes l), s) /\
       forall n : Note.t,
         In n l <-> In n (notes s) /\ Note.tenantId n = User.tenantId u).
Proof.
  intros Hwf Hin He Hene Hp Hpne Hok Hns Hver.
  eexists. split.
  - unfold app, try_catch, post_login, bind, user_findUnique,
      bcrypt_compare_await, read.
    rewrite He, Hp, !truthy_nonempty by assumption. simpl.
    rewrite find_key by auto using wf_user_email.
    unfold ret. rewrite Hok. reflexivity.
  - intros Hh.
    set (token := jwt_sign _ _) in *.
    assert (Hauth : authenticate env' req'
                    = inr (Payload.mk (User.id u) (User.tenantId u)
                                      (User.role u))).
    { unfold authenticate. rewrite Hh.
      change ("Bearer " ++ token) with ("Bearer" ++ String space token).
      rewrite split_head by reflexivity.
      rewrite split_no_sep by assumption. simpl.
      destruct (String.eqb token "") eqn:E.
      - apply String.eqb_eq in E. rewrite E, jwt_verify_nonempty in Hver.
        discriminate.
      - now rewrite Hver. }
    split; [exact Hauth|].
    exists (sort_desc (filter (in_tenant (User.tenantId u)) (notes s))).
    split.
    + unfold app, authenticated. now rewrite Hauth.
    + intros n.
      rewrite <- (Permutation_in' (eq_refl n) (sort_desc_perm _)).
      rewrite filter_In. unfold in_tenant. now rewrite String.eqb_eq.
Qed.

Lemma login_token_authenticates_witness :
  (wf Demo.db /\
   In Demo.alice (users Demo.db) /\
   bcrypt_compare "password" (User.password Demo.alice) = true /\
   has_char space (jwt_sign (Demo.payload_of Demo.alice) (now Demo.env1))
   = false /\
   jwt_verify (jwt_sign (Demo.payload_of Demo.alice) (now Demo.env1))
              (now Demo.env2)
   = Some (Demo.payload_of Demo.alice)) /\
  exists token : string,
    app Demo.env1 POST_login Demo.login_alice Demo.db
    = (json_ok (BLogin token (toSafeUser Demo.alice)), Demo.db) /\
    (authorization (Demo.bearer Demo.alice None) = Some ("Bearer " ++ token) ->
     authenticate Demo.env2 (Demo.bearer Demo.alice None)
     = inr (Demo.payload_of Demo.alice) /\
     exists l : list Note.t,
       app Demo.env2 GET_notes (Demo.bearer Demo.alice None) Demo.db
       = (json_ok (BNotes l), Demo.db) /\
       forall n : Note.t,
         In n l <-> In n (notes Demo.db) /\ Note.tenantId n = "t1").
Proof.
  assert (Hin : In Demo.alice (users Demo.db)) by (simpl; tauto).
  assert (He : User.email Demo.alice <> "") by (simpl; discriminate).
  assert (Hp : "password" <> "") by discriminate.
  split; [split; [exact demo_db_wf | repeat split; auto]|].
  exact (login_token_authenticates Demo.env1 Demo.env2 Demo.login_alice
           (Demo.bearer Demo.alice None) Demo.db Demo.alice "password"
           demo_db_wf Hin eq_refl He eq_refl Hp eq_refl eq_refl eq_refl).
Defined.

(* ===================================================================== *)
(** ** What a request may change *)
(* ===================================================================== *)

Lemma app_changes `{Externals} (env : Env) (route : Route) (req : Request)
    (s : Store) :
  changes env req s route (snd (app env route req s)).
Proof.
  destruct route; unfold_route; repeat break_match;
    try write_result; simpl; try apply Unchanged.
  - (* POST /notes, FREE and below the quota *)
    match goal with
    | E : note_create _ _ _ _ _ _ = (Val _, _),
      F : find _ (tenants s) = Some ?t0,
      L : Nat.leb 3 _ = false |- _ =>
        apply note_create_inv in E
          as (ti & co & _ & _ & -> & -> & Hfresh & _ & Huser);
        apply (Created env req s _ t0 ti co); auto;
        right; apply find_some in F as [_ Hid];
        apply String.eqb_eq in Hid; apply Nat.leb_gt in L;
        unfold count_notes; now rewrite <- Hid
    end.
  - (* POST /notes, PRO *)
    match goal with
    | E : note_create _ _ _ _ _ _ = (Val _, _),
      F : find _ (tenants s) = Some ?t0,
      P : Plan_eqb (Tenant.plan ?t0) FREE = false |- _ =>
        apply note_create_inv in E
          as (ti & co & _ & _ & -> & -> & Hfresh & _ & Huser);
        apply (Created env req s _ t0 ti co); auto;
        left; destruct (Tenant.plan t0); [discriminate|reflexivity]
    end.
  - (* PUT /notes/:id *)
    match goal with
    | E : note_update _ _ _ _ _ = (Val _, _),
      F : find _ (notes s) = Some ?old |- _ =>
        apply note_update_inv in E as [-> | (ti & co & ->)];
        [ apply Unchanged | ];
        apply find_some in F as [Hin Hp];
        apply andb_true_iff in Hp as [Hid Hten];
        apply String.eqb_eq in Hid; apply String.eqb_eq in Hten;
        subst id; eapply Updated; eauto
    end.
  - (* DELETE /notes/:id *)
    match goal with
    | E : note_delete _ _ = (Val _, _),
      F : find _ (notes s) = Some ?old |- _ =>
        apply note_delete_inv in E as [_ ->];
        apply find_some in F as [Hin Hp];
        apply andb_true_iff in Hp as [Hid Hten];
        apply String.eqb_eq in Hid; apply String.eqb_eq in Hten;
        subst id; eapply Deleted; eauto
    end.
  - (* POST /tenants/:slug/upgrade *)
    match goal with
    | E : tenant_update _ _ _ _ = (Val _, _),
      F : find _ (tenants s) = Some ?t0,
      I : negb (String.eqb (Tenant.id ?t0) _) = false,
      P : Plan_eqb (Tenant.plan ?t0) PRO = false,
      R : Role_eqb _ ADMIN = true |- _ =>
        apply tenant_update_inv in E as (_ & _ & _ & ->);
        apply find_some in F as [Hin Hslug];
        apply String.eqb_eq in Hslug;
        apply negb_false_iff, String.eqb_eq in I;
        subst slug; eapply Upgraded; eauto;
        [ destruct (Payload.role _); [reflexivity|discriminate]
        | destruct (Tenant.plan t0); [reflexivity|discriminate] ]
    end.
Qed.

Lemma filter_map_length {A} (p : A -> bool) (f : A -> A) (l : list A) :
  (forall x, p (f x) = p x) ->
  length (filter p (map f l)) = length (filter p l).
Proof.
  intros Hp. induction l as [|a l IH]; simpl; [reflexivity|].
  rewrite Hp. destruct (p a); simpl; auto.
Qed.

Lemma filter_filter_length {A} (p q : A -> bool) (l : list A) :
  length (filter p (filter q l)) <= length (filter p l).
Proof.
  induction l as [|a l IH]; simpl; [auto|].
  destruct (q a); simpl; destruct (p a); simpl; lia.
Qed.

Lemma filter_filter_same {A} (p q : A -> bool) (l : list A) :
  (forall x, In x l -> p x = true -> q x = true) ->
  filter p (filter q l) = filter p l.
Proof.
  induction l as [|a l IH]; simpl; [reflexivity|].
  intros Hq.
  destruct (p a) eqn:P.
  - rewrite (Hq a) by auto. simpl. rewrite P, IH; auto.
  - destruct (q a); simpl; rewrite ?P, IH; auto.
Qed.

Lemma filter_map_fixed {A} (p : A -> bool) (f : A -> A) (l : list A) :
  (forall x, In x l -> p (f x) = p x /\ (p x = true -> f x = x)) ->
  filter p (map f l) = filter p l.
Proof.
  induction l as [|a l IH]; simpl; [reflexivity|].
  intros Hf. destruct (Hf a) as [Hp Hfix]; auto.
  rewrite Hp, IH by auto.
  destruct (p a); [now rewrite Hfix|reflexivity].
Qed.

Lemma Forall2_map_same {A} (R : A -> A -> Prop) (f : A -> A) (l : list A) :
  (forall x, In x l -> R x (f x)) -> Forall2 R l (map f l).
Proof.
  induction l as [|a l IH]; simpl; constructor; auto.
Qed.

Lemma Forall2_same {A} (R : A -> A -> Prop) (l : list A) :
  (forall x, R x x) -> Forall2 R l l.
Proof.
  intros HR. induction l; constructor; auto.
Qed.

Lemma Forall2_compose {A} (R : A -> A -> Prop) (l1 l2 l3 : list A) :
  (forall x y z, R x y -> R y z -> R x z) ->
  Forall2 R l1 l2 -> Forall2 R l2 l3 -> Forall2 R l1 l3.
Proof.
  intros HR H12. revert l3.
  induction H12; intros l3 H23; inversion H23; subst; constructor; eauto.
Qed.

Lemma tenant_kept_trans (x y z : Tenant.t) :
  tenant_kept x y -> tenant_kept y z -> tenant_kept x z.
Proof.
  intros [-> | [Hx [a ->]]] [-> | [Hy [b ->]]].
  - now left.
  - right. eauto.
  - right. eauto.
  - simpl in Hy. discriminate.
Qed.

Lemma within_quota_spec (s : Store) :
  within_quota s = true <->
  forall t, In t (tenants s) -> Tenant.plan t = FREE ->
            count_notes (Tenant.id t) s <= 3.
Proof.
  unfold within_quota. rewrite forallb_forall.
  split; intros Hq t Hin.
  - intros Hfree. specialize (Hq t Hin).
    rewrite Hfree in Hq. simpl in Hq. now apply Nat.leb_le.
  - destruct (Tenant.plan t) eqn:P; simpl; [|reflexivity].
    apply Nat.leb_le. auto.
Qed.

(** The row with the id of a stored row is that row. *)
Lemma same_note_id (s : Store) (old x : Note.t) :
  wf s -> In old (notes s) -> In x (notes s) ->
  String.eqb (Note.id x) (Note.id old) = true -> x = old.
Proof.
  intros Hwf Hold Hx E. apply String.eqb_eq in E.
  apply (key_unique Note.id (notes s)); auto using wf_note_pkey.
Qed.

Lemma same_tenant_id (s : Store) (old x : Tenant.t) :
  wf s -> In old (tenants s) -> In x (tenants s) ->
  String.eqb (Tenant.id x) (Tenant.id old) = true -> x = old.
Proof.
  intros Hwf Hold Hx E. apply String.eqb_eq in E.
  apply (key_unique Tenant.id (tenants s)); auto using wf_tenant_pkey.
Qed.

Lemma changes_within_quota `{Externals} (env : Env) (route : Route)
    (req : Request) (s s' : Store) :
  wf s -> within_quota s = true -> changes env req s route s' ->
  within_quota s' = true.
Proof.
  intros Hwf Hq Hch. rewrite within_quota_spec in *.
  destruct Hch as [route | user tenant title content Hauth Hfind Hroom _ _
                   | user old title content Hauth Hold Hten
                   | user old Hauth Hold Hten
                   | user tenant Hauth Hrole Hin Hid Hfree];
    [assumption|..]; unfold count_notes; simpl; intros t Ht Hplan.
  - rewrite filter_app, length_app. simpl. unfold in_tenant at 2. simpl.
    apply find_some in Hfind as [Hin Hid].
    specialize (Hq t Ht Hplan). unfold count_notes in *.
    destruct (String.eqb (Payload.tenantId user) (Tenant.id t)) eqn:E;
      simpl; [|lia].
    apply String.eqb_eq in E.
    assert (t = tenant) as ->.
    { apply (same_tenant_id s); auto.
      rewrite <- E, String.eqb_sym. exact Hid. }
    destruct Hroom as [Hpro | Hlt]; [congruence|].
    rewrite E in Hlt. lia.
  - rewrite filter_map_length; [now apply Hq|].
    intros x. now destruct (String.eqb (Note.id x) (Note.id old)).
  - etransitivity; [apply filter_filter_length|now apply Hq].
  - apply in_map_iff in Ht as [x [Hx Hxin]].
    destruct (String.eqb (Tenant.id x) (Tenant.id tenant)).
    + subst t. discriminate.
    + subst t. now apply Hq.
Qed.

(** X8.  Served one request after the other, the quota holds: if no FREE
    tenant has more than three notes, then after any sequence of requests
    no FREE tenant has more than three notes. *)
Theorem quota_is_kept `{Externals}
    (calls : list (Env * Route * Request)) (s : Store) :
  wf s -> within_quota s = true -> within_quota (serve calls s) = true.
Proof.
  revert s. induction calls as [|[[env route] req] calls IH]; simpl; auto.
  intros s Hwf Hq. apply IH.
  - now apply app_wf.
  - eapply changes_within_quota; eauto using app_changes.
Qed.

Lemma quota_is_kept_witness :
  (wf Demo.db /\ within_quota Demo.db = true) /\
  within_quota (serve Demo.calls Demo.db) = true.
Proof.
  split; [split; [exact demo_db_wf | reflexivity]|].
  exact (quota_is_kept Demo.calls Demo.db demo_db_wf eq_refl).
Defined.





(** X10.  A request touches the notes of the caller's tenant only: for a
    tenant id that is not that of the token the request comes with (or for
    any tenant id, if [authenticate] does not let the request through), the
    notes of that tenant are after the request the rows they were before,
    in their order. *)
Theorem other_tenants_untouched `{Externals}
    (env : Env) (route : Route) (req : Request) (s : Store)
    (tenantId : string) :
  wf s ->
  (forall user : Payload.t,
      authenticate env req = inr user -> Payload.tenantId user <> tenantId) ->
  filter (in_tenant tenantId) (notes (snd (app env route req s)))
  = filter (in_tenant tenantId) (notes s).
Proof.
  intros Hwf Hother.
  destruct (app_changes env route req s)
    as [route | user tenant title content Hauth _ _ _ _
        | user old title content Hauth Hold Hten
        | user old Hauth Hold Hten
        | user tenant Hauth _ _ _ _];
    simpl; auto; apply Hother in Hauth.
  - rewrite filter_app. simpl. unfold in_tenant at 2. simpl.
    apply String.eqb_neq in Hauth. rewrite Hauth. apply app_nil_r.
  - apply filter_map_fixed. intros x Hx.
    destruct (String.eqb (Note.id x) (Note.id old)) eqn:E; [|auto].
    apply (same_note_id s old x Hwf Hold Hx) in E. subst x.
    split; [reflexivity|].
    unfold in_tenant. rewrite String.eqb_eq. congruence.
  - apply filter_filter_same. intros x Hx Hp.
    destruct (String.eqb (Note.id x) (Note.id old)) eqn:E; [|reflexivity].
    apply (same_note_id s old x Hwf Hold Hx) in E. subst x.
    unfold in_tenant in Hp. apply String.eqb_eq in Hp. congruence.
Qed.

Lemma other_tenants_untouched_witness :
  wf Demo.db /\
  filter (in_tenant "t2")
    (notes (snd (app Demo.env1 (DELETE_note "n4") (Demo.bearer Demo.bob None)
                     Demo.db)))
  = filter (in_tenant "t2") (notes Demo.db).
Proof.
  split; [exact demo_db_wf|].
  apply (other_tenants_untouched Demo.env1 (DELETE_note "n4")
           (Demo.bearer Demo.bob None) Demo.db "t2" demo_db_wf).
  intros user Hauth.
  assert (Hbob : authenticate Demo.env1 (Demo.bearer Demo.bob None)
                 = inr (Demo.payload_of Demo.bob)) by reflexivity.
  rewrite Hbob in Hauth. injection Hauth as <-. simpl. discriminate.
Defined.

Lemma changes_tenants `{Externals} (env : Env) (route : Route)
    (req : Request) (s s' : Store) :
  wf s -> changes env req s route s' ->
  users s' = users s /\ Forall2 tenant_kept (tenants s) (tenants s').
Proof.
  intros Hwf Hch.
  destruct Hch as [route | user tenant title content _ _ _ _ _
                   | user old title content _ _ _
                   | user old _ _ _
                   | user tenant Hauth Hrole Hin Hid Hfree];
    simpl; (split; [reflexivity|]);
    try (apply Forall2_same; intros x; now left).
  apply Forall2_map_same. intros x Hx.
  destruct (String.eqb (Tenant.id x) (Tenant.id tenant)) eqn:E; [|now left].
  apply (same_tenant_id s tenant x Hwf Hin Hx) in E. subst x.
  right. eauto.
Qed.

(** X11.  No request writes to the User table, and none adds, removes or
    reorders a tenant or changes a tenant otherwise than from FREE to PRO:
    after any sequence of requests the users are the rows they were, and
    each tenant is the row it was or that row with plan PRO in place of
    FREE and a new [updatedAt].  So a PRO tenant is never downgraded. *)
Theorem tenants_and_users_kept `{Externals}
    (calls : list (Env * Route * Request)) (s : Store) :
  wf s ->
  users (serve calls s) = users s /\
  Forall2 tenant_kept (tenants s) (tenants (serve calls s)).
Proof.
  revert s. induction calls as [|[[env route] req] calls IH]; simpl.
  - intros s _. split; [reflexivity|].
    apply Forall2_same. intros x. now left.
  - intros s Hwf.
    destruct (changes_tenants env route req s _ Hwf
                (app_changes env route req s)) as [Hu Ht].
    destruct (IH _ (app_wf env route req s Hwf)) as [Hu' Ht'].
    split; [congruence|].
    eapply Forall2_compose; eauto using tenant_kept_trans.
Qed.

Lemma tenants_and_users_kept_witness :
  wf Demo.db /\
  users (serve Demo.calls Demo.db) = users Demo.db /\
  Forall2 tenant_kept (tenants Demo.db) (tenants (serve Demo.calls Demo.db)).
Proof.
  split; [exact demo_db_wf|].
  exact (tenants_and_users_kept Demo.calls Demo.db demo_db_wf).
Defined.

(* ===================================================================== *)
(** ** The note routes, one after the other *)
(* ===================================================================== *)

Lemma get_route_found `{Externals} (env : Env) (req : Request) (s : Store)
    (user : Payload.t) (n : Note.t) :
  wf s -> authenticate env req = inr user ->
  In n (notes s) -> Note.tenantId n = Payload.tenantId user ->
  app env (GET_note (Note.id n)) req s = (json_ok (BNote n), s).
Proof.
  intros Hwf Hauth Hin Hten.
  unfold app, authenticated. rewrite Hauth.
  unfold try_catch, get_note, bind, note_findFirst, read.
  now rewrite (note_findFirst_found s _ _ n).
Qed.

Lemma get_route_none `{Externals} (env : Env) (req : Request) (s : Store)
    (user : Payload.t) (id : string) :
  authenticate env req = inr user ->
  (forall n, In n (notes s) -> Note.id n = id ->
             Note.tenantId n <> Payload.tenantId user) ->
  app env (GET_note id) req s = (json_status 404 (BError "Not found"), s).
Proof.
  intros Hauth Hnone.
  unfold app, authenticated. rewrite Hauth.
  unfold try_catch, get_note, bind, note_findFirst, read.
  now rewrite note_findFirst_none.
Qed.

Lemma delete_route `{Externals} (env : Env) (req : Request) (s : Store)
    (user : Payload.t) (old : Note.t) :
  wf s -> authenticate env req = inr user ->
  In old (notes s) -> Note.tenantId old = Payload.tenantId user ->
  app env (DELETE_note (Note.id old)) req s
  = (json_status 204 BEmpty,
     mkStore (tenants s) (users s)
       (filter (fun x => negb (String.eqb (Note.id x) (Note.id old)))
               (notes s))).
Proof.
  intros Hwf Hauth Hin Hten.
  unfold app, authenticated. rewrite Hauth.
  unfold try_catch, delete_note, bind, note_findFirst, read.
  rewrite (note_findFirst_found s _ _ old) by auto.
  unfold note_delete.
  now rewrite find_key by auto using wf_note_pkey.
Qed.

Lemma put_route `{Externals} (env : Env) (req : Request) (s : Store)
    (user : Payload.t) (old : Note.t) (title content : string) :
  wf s -> authenticate env req = inr user ->
  In old (notes s) -> Note.tenantId old = Payload.tenantId user ->
  prop (body_or_empty req) "title" <> None \/
  prop (body_or_empty req) "content" <> None ->
  update_text (Note.title old) (prop (body_or_empty req) "title")
  = Some title ->
  update_text (Note.content old) (prop (body_or_empty req) "content")
  = Some content ->
  app env (PUT_note (Note.id old)) req s
  = (json_ok (BNote (set_texts title content (now env) old)),
     mkStore (tenants s) (users s)
       (map (fun x => if String.eqb (Note.id x) (Note.id old)
                      then set_texts title content (now env) x else x)
            (notes s))).
Proof.
  intros Hwf Hauth Hin Hten Hsome Ht Hc.
  unfold app, authenticated. rewrite Hauth.
  unfold try_catch, put_note, bind, note_findFirst, read.
  rewrite (note_findFirst_found s _ _ old) by auto.
  now rewrite (note_update_written env s old _ _ title content) by assumption.
Qed.

Lemma put_route_empty `{Externals} (env : Env) (req : Request) (s : Store)
    (user : Payload.t) (old : Note.t) :
  wf s -> authenticate env req = inr user ->
  In old (notes s) -> Note.tenantId old = Payload.tenantId user ->
  prop (body_or_empty req) "title" = None ->
  prop (body_or_empty req) "content" = None ->
  app env (PUT_note (Note.id old)) req s = (json_ok (BNote old), s).
Proof.
  intros Hwf Hauth Hin Hten Ht Hc.
  unfold app, authenticated. rewrite Hauth.
  unfold try_catch, put_note, bind, note_findFirst, read.
  rewrite (note_findFirst_found s _ _ old) by auto.
  now rewrite Ht, Hc, note_update_empty.
Qed.

Lemma filter_filter_less {A} (p q : A -> bool) (l : list A) (x : A) :
  In x l -> p x = true -> q x = false ->
  length (filter p (filter q l)) < length (filter p l).
Proof.
  induction l as [|a l IH]; simpl; [tauto|].
  intros [-> | Hin] Hp Hq.
  - rewrite Hq, Hp. simpl.
    pose proof (filter_filter_length p q l). lia.
  - specialize (IH Hin Hp Hq).
    destruct (q a); simpl; destruct (p a); simpl; lia.
Qed.

(** X12.  The quota counts the notes that are there when the note is
    created.  For a caller of a FREE tenant, with a title and a content
    that are non-empty strings, a new generated id and the caller stored as
    a user: a tenant with fewer than three notes gets the note (201); and a
    tenant with three notes gets it once one of its notes has been deleted,
    the deletion making room. *)
Theorem post_notes_below_quota `{Externals}
    (env : Env) (req : Request) (s : Store) (user : Payload.t)
    (title content : string) (tenant : Tenant.t) :
  wf s ->
  authenticate env req = inr user ->
  prop (body_or_empty req) "title" = Some (JStr title) -> title <> "" ->
  prop (body_or_empty req) "content" = Some (JStr content) -> content <> "" ->
  In tenant (tenants s) ->
  Tenant.id tenant = Payload.tenantId user ->
  Tenant.plan tenant = FREE ->
  ~ In (newId env) (map Note.id (notes s)) ->
  In (Payload.userId user) (map User.id (users s)) ->
  (count_notes (Payload.tenantId user) s < 3 ->
   app env POST_notes req s
   = (json_status 201 (BNote (created_note env user title content)),
      add_note (created_note env user title content) s))
  /\
  (forall (env0 : Env) (req0 : Request) (user0 : Payload.t) (old : Note.t),
      count_notes (Payload.tenantId user) s <= 3 ->
      authenticate env0 req0 = inr user0 ->
      Payload.tenantId user0 = Payload.tenantId user ->
      In old (notes s) ->
      Note.tenantId old = Payload.tenantId user ->
      app env POST_notes req
          (snd (app env0 (DELETE_note (Note.id old)) req0 s))
      = (json_status 201 (BNote (created_note env user title content)),
         add_note (created_note env user title content)
                  (snd (app env0 (DELETE_note (Note.id old)) req0 s)))).
Proof.
  intros Hwf Hauth Ht Htne Hc Hcne Hin Hid Hfree Hfresh Huser.
  assert (Hfind : find (fun t => String.eqb (Tenant.id t) (Payload.tenantId user))
                       (tenants s) = Some tenant).
  { rewrite <- Hid. apply find_key; auto using wf_tenant_pkey. }
  split.
  - intros Hlt.
    unfold app, authenticated. rewrite Hauth.
    apply post_notes_creates with (tenant := tenant); auto.
  - intros env0 req0 user0 old Hle Hauth0 Hsame Hold Hten.
    rewrite (delete_route env0 req0 s user0 old) by (auto; congruence).
    simpl.
    unfold app, authenticated. rewrite Hauth.
    apply post_notes_creates with (tenant := tenant); auto; simpl.
    + right. unfold count_notes in Hle.
      eapply Nat.lt_le_trans; [|exact Hle].
      apply filter_filter_less with (x := old); auto.
      * unfold in_tenant. now rewrite Hten, String.eqb_refl.
      * now rewrite String.eqb_refl.
    + intros Hn. apply Hfresh.
      apply in_map_iff in Hn as [x [Hx Hxin]].
      apply filter_In in Hxin as [Hxin _].
      rewrite <- Hx. now apply in_map.
Qed.

Lemma post_notes_below_quota_witness :
  (wf Demo.db /\
   authenticate Demo.env2 Demo.fourth = inr (Demo.payload_of Demo.bob) /\
   In Demo.acme (tenants Demo.db) /\
   Tenant.plan Demo.acme = FREE /\
   count_notes "t1" Demo.db <= 3 /\
   In Demo.note_a1 (notes Demo.db)) /\
  app Demo.env2 POST_notes Demo.fourth
      (snd (app Demo.env1 (DELETE_note "n1") (Demo.bearer Demo.alice None)
                Demo.db))
  = (json_status 201
       (BNote (created_note Demo.env2 (Demo.payload_of Demo.bob) "a4" "fourth")),
     add_note (created_note Demo.env2 (Demo.payload_of Demo.bob) "a4" "fourth")
       (snd (app Demo.env1 (DELETE_note "n1") (Demo.bearer Demo.alice None)
                 Demo.db))).
Proof.
  assert (Hauth : authenticate Demo.env2 Demo.fourth
                  = inr (Demo.payload_of Demo.bob)) by reflexivity.
  assert (Hauth0 : authenticate Demo.env1 (Demo.bearer Demo.alice None)
                   = inr (Demo.payload_of Demo.alice)) by reflexivity.
  assert (Hin : In Demo.acme (tenants Demo.db)) by (simpl; tauto).
  assert (Hold : In Demo.note_a1 (notes Demo.db)) by (simpl; tauto).
  assert (Hle : count_notes "t1" Demo.db <= 3) by (vm_compute; lia).
  assert (Ht : "a4" <> "") by discriminate.
  assert (Hc : "fourth" <> "") by discriminate.
  assert (Hfresh : ~ In (newId Demo.env2) (map Note.id (notes Demo.db)))
    by (simpl; intuition discriminate).
  assert (Huser : In (Payload.userId (Demo.payload_of Demo.bob))
                     (map User.id (users Demo.db))) by (simpl; tauto).
  split; [split; [exact demo_db_wf | repeat split; auto]|].
  exact (proj2 (post_notes_below_quota Demo.env2 Demo.fourth Demo.db
                  (Demo.payload_of Demo.bob) "a4" "fourth" Demo.acme
                  demo_db_wf Hauth eq_refl Ht eq_refl Hc Hin eq_refl eq_refl
                  Hfresh Huser)
               Demo.env1 (Demo.bearer Demo.alice None)
               (Demo.payload_of Demo.alice) Demo.note_a1
               Hle Hauth0 eq_refl Hold eq_refl).
Defined.

(** X13.  POST /notes checks the body before it looks at the database, and
    the tenant before the quota: with a token that [authenticate] accepts,
    a title or a content that is missing or falsy (the empty string,
    [null], [false], 0) is answered 400 whatever the database holds; with
    both truthy and no tenant stored under the tenant id of the token, the
    answer is 404 "Tenant not found".  Nothing changes in either case. *)
Theorem post_notes_checks_in_order `{Externals}
    (env : Env) (req : Request) (s : Store) (user : Payload.t) :
  authenticate env req = inr user ->
  (truthy (prop (body_or_empty req) "title") = false \/
   truthy (prop (body_or_empty req) "content") = false ->
   app env POST_notes req s
   = (json_status 400 (BError "Title and content are required"), s))
  /\
  (truthy (prop (body_or_empty req) "title") = true ->
   truthy (prop (body_or_empty req) "content") = true ->
   (forall t : Tenant.t,
       In t (tenants s) -> Tenant.id t <> Payload.tenantId user) ->
   app env POST_notes req s
   = (json_status 404 (BError "Tenant not found"), s)).
Proof.
  intros Hauth.
  unfold app, authenticated. rewrite Hauth.
  unfold try_catch, post_notes, bind, tenant_findUnique, read.
  split.
  - intros [Hf | Hf]; rewrite Hf; simpl; [reflexivity|].
    now rewrite orb_true_r.
  - intros Ht Hc Hnone. rewrite Ht, Hc. simpl.
    rewrite find_absent; [reflexivity|].
    intros x Hx. apply String.eqb_neq. auto.
Qed.

Lemma post_notes_checks_in_order_witness :
  (authenticate Demo.env1 Demo.untitled = inr (Demo.payload_of Demo.bob) /\
   truthy (prop (body_or_empty Demo.untitled) "title") = false) /\
  app Demo.env1 POST_notes Demo.untitled Demo.db
  = (json_status 400 (BError "Title and content are required"), Demo.db).
Proof.
  assert (Hauth : authenticate Demo.env1 Demo.untitled
                  = inr (Demo.payload_of Demo.bob)) by reflexivity.
  split; [split; [exact Hauth | reflexivity]|].
  exact (proj1 (post_notes_checks_in_order Demo.env1 Demo.untitled Demo.db
                  (Demo.payload_of Demo.bob) Hauth)
               (or_introl eq_refl)).
Defined.

(** X14.  POST /login wants both fields: if the email or the password of
    the body is missing or falsy, and so if the request has no body at all,
    the answer is 400 "Email and password are required", whoever is stored,
    and nothing changes. *)
Theorem login_requires_both_fields `{Externals}
    (env : Env) (req : Request) (s : Store) :
  (truthy (prop (body_or_empty req) "email") = false \/
   truthy (prop (body_or_empty req) "password") = false ->
   app env POST_login req s
   = (json_status 400 (BError "Email and password are required"), s))
  /\
  (body req = None ->
   app env POST_login req s
   = (json_status 400 (BError "Email and password are required"), s)).
Proof.
  assert (Hfalsy :
    truthy (prop (body_or_empty req) "email") = false \/
    truthy (prop (body_or_empty req) "password") = false ->
    app env POST_login req s
    = (json_status 400 (BError "Email and password are required"), s)).
  { unfold app, try_catch, post_login.
    intros [Hf | Hf]; rewrite Hf; simpl; [reflexivity|].
    now rewrite orb_true_r. }
  split; [exact Hfalsy|].
  intros Hnone. apply Hfalsy. left.
  unfold body_or_empty. now rewrite Hnone.
Qed.

Lemma login_requires_both_fields_witness :
  body (mkRequest None None) = None /\
  app Demo.env1 POST_login (mkRequest None None) Demo.db
  = (json_status 400 (BError "Email and password are required"), Demo.db).
Proof.
  split; [reflexivity|].
  exact (proj2 (login_requires_both_fields Demo.env1 (mkRequest None None)
                  Demo.db) eq_refl).
Defined.

(** X15.  GET /health, POST /login, GET /notes and GET /notes/:id only
    read: whatever the request and whatever they answer, the database after
    them is the database before them. *)
Theorem reads_change_nothing `{Externals}
    (env : Env) (req : Request) (s : Store) :
  snd (app env GET_health req s) = s /\
  snd (app env POST_login req s) = s /\
  snd (app env GET_notes req s) = s /\
  (forall id : string, snd (app env (GET_note id) req s) = s).
Proof.
  repeat split; try intros id;
    unfold_route; repeat break_match; reflexivity.
Qed.

Lemma post_notes_201 `{Externals} (env : Env) (req : Request)
    (s s' : Store) (r : Response) :
  app env POST_notes req s = (r, s') ->
  status r = 201 ->
  exists (user : Payload.t) (n : Note.t),
    authenticate env req = inr user /\
    r = json_status 201 (BNote n) /\
    note_create env (prop (body_or_empty req) "title")
                (prop (body_or_empty req) "content")
                (Payload.tenantId user) (Payload.userId user) s
    = (Val n, s').
Proof.
  unfold_route. repeat break_match; try write_result;
    intros [= <- <-]; simpl; try discriminate; intros H201.
  - match goal with
    | E : authenticate _ _ = inl _ |- _ =>
        apply authenticate_rejects in E; congruence
    end.
  - eauto.
  - eauto.
Qed.

(** X16.  A note that has been created is there to be read.  Whenever
    POST /notes answers 201 with a note, in a database with unique ids,
    then in the database it leaves GET /notes/:id with the id of that note
    answers 200 with that very note to every caller of the note's tenant,
    and 404 to every caller of another tenant. *)
Theorem created_note_is_found `{Externals}
    (env : Env) (req : Request) (s s' : Store) (r : Response) :
  wf s ->
  app env POST_notes req s = (r, s') ->
  status r = 201 ->
  exists n : Note.t,
    payload r = BNote n /\
    In n (notes s') /\
    forall (env' : Env) (req' : Request) (user' : Payload.t),
      authenticate env' req' = inr user' ->
      (Payload.tenantId user' = Note.tenantId n ->
       app env' (GET_note (Note.id n)) req' s' = (json_ok (BNote n), s')) /\
      (Payload.tenantId user' <> Note.tenantId n ->
       app env' (GET_note (Note.id n)) req' s'
       = (json_status 404 (BError "Not found"), s')).
Proof.
  intros Hwf Hpost H201.
  assert (Hwf' : wf s').
  { replace s' with (snd (app env POST_notes req s)) by now rewrite Hpost.
    now apply app_wf. }
  destruct (post_notes_201 env req s s' r Hpost H201)
    as (user & n & _ & -> & Hcreate).
  apply note_create_inv in Hcreate as (ti & co & _ & _ & _ & Hs & _).
  assert (Hin : In n (notes s'))
    by (rewrite Hs; simpl; apply in_or_app; right; simpl; auto).
  exists n. split; [reflexivity|]. split; [exact Hin|].
  intros env' req' user' Hauth'. split; intros Hten.
  - apply (get_route_found env' req' s' user' n); auto.
  - apply (get_route_none env' req' s' user'); auto.
    intros m Hm Hid Hmten. apply Hten.
    rewrite <- Hmten. f_equal. symmetry.
    apply (key_unique Note.id (notes s')); auto using wf_note_pkey.
Qed.

Lemma created_note_is_found_witness :
  (wf Demo.db_pro /\
   status (fst (app Demo.env2 POST_notes Demo.fourth Demo.db_pro)) = 201) /\
  exists n : Note.t,
    payload (fst (app Demo.env2 POST_notes Demo.fourth Demo.db_pro)) = BNote n
    /\
    In n (notes (snd (app Demo.env2 POST_notes Demo.fourth Demo.db_pro))) /\
    forall (env' : Env) (req' : Request) (user' : Payload.t),
      authenticate env' req' = inr user' ->
      (Payload.tenantId user' = Note.tenantId n ->
       app env' (GET_note (Note.id n)) req'
           (snd (app Demo.env2 POST_notes Demo.fourth Demo.db_pro))
       = (json_ok (BNote n),
          snd (app Demo.env2 POST_notes Demo.fourth Demo.db_pro))) /\
      (Payload.tenantId user' <> Note.tenantId n ->
       app env' (GET_note (Note.id n)) req'
           (snd (app Demo.env2 POST_notes Demo.fourth Demo.db_pro))
       = (json_status 404 (BError "Not found"),
          snd (app Demo.env2 POST_notes Demo.fourth Demo.db_pro))).
Proof.
  assert (Hwf : wf Demo.db_pro)
    by (apply (app_wf Demo.env1 (POST_upgrade "acme")
                 (Demo.bearer Demo.alice None) Demo.db demo_db_wf)).
  split; [split; [exact Hwf | reflexivity]|].
  exact (created_note_is_found Demo.env2 Demo.fourth Demo.db_pro
           (snd (app Demo.env2 POST_notes Demo.fourth Demo.db_pro))
           (fst (app Demo.env2 POST_notes Demo.fourth Demo.db_pro))
           Hwf eq_refl eq_refl).
Defined.

(** X17.  A note that has been deleted is gone, and only that note.  After
    DELETE /notes/:id by a caller of the note's tenant, GET /notes/:id with
    that id answers 404 to every caller; every other stored note is still
    answered 200 to the callers of its tenant. *)
Theorem deleted_note_is_gone `{Externals}
    (env : Env) (req : Request) (s : Store) (user : Payload.t)
    (old : Note.t) :
  wf s ->
  authenticate env req = inr user ->
  In old (notes s) ->
  Note.tenantId old = Payload.tenantId user ->
  forall (env' : Env) (req' : Request) (user' : Payload.t),
    authenticate env' req' = inr user' ->
    app env' (GET_note (Note.id old)) req'
        (snd (app env (DELETE_note (Note.id old)) req s))
    = (json_status 404 (BError "Not found"),
       snd (app env (DELETE_note (Note.id old)) req s))
    /\
    (forall m : Note.t,
        In m (notes s) -> m <> old ->
        Note.tenantId m = Payload.tenantId user' ->
        app env' (GET_note (Note.id m)) req'
            (snd (app env (DELETE_note (Note.id old)) req s))
        = (json_ok (BNote m),
           snd (app env (DELETE_note (Note.id old)) req s))).
Proof.
  intros Hwf Hauth Hold Hten env' req' user' Hauth'.
  pose proof (app_wf env (DELETE_note (Note.id old)) req s Hwf) as Hwf'.
  rewrite (delete_route env req s user old) in * by auto.
  simpl in *. split.
  - apply (get_route_none env' req' _ user'); auto.
    simpl. intros n Hn Hid.
    apply filter_In in Hn as [_ Hn].
    rewrite Hid, String.eqb_refl in Hn. discriminate.
  - intros m Hm Hne Hmten.
    apply (get_route_found env' req' _ user' m); auto.
    simpl. apply filter_In. split; [assumption|].
    apply negb_true_iff.
    destruct (String.eqb (Note.id m) (Note.id old)) eqn:E; [|reflexivity].
    apply (same_note_id s old m Hwf Hold Hm) in E. contradiction.
Qed.

Lemma deleted_note_is_gone_witness :
  (wf Demo.db /\
   authenticate Demo.env1 (Demo.bearer Demo.bob None)
   = inr (Demo.payload_of Demo.bob) /\
   In Demo.note_a1 (notes Demo.db) /\
   authenticate Demo.env2 (Demo.bearer Demo.alice None)
   = inr (Demo.payload_of Demo.alice)) /\
  app Demo.env2 (GET_note "n1") (Demo.bearer Demo.alice None)
      (snd (app Demo.env1 (DELETE_note "n1") (Demo.bearer Demo.bob None)
                Demo.db))
  = (json_status 404 (BError "Not found"),
     snd (app Demo.env1 (DELETE_note "n1") (Demo.bearer Demo.bob None)
              Demo.db)).
Proof.
  assert (Hauth : authenticate Demo.env1 (Demo.bearer Demo.bob None)
                  = inr (Demo.payload_of Demo.bob)) by reflexivity.
  assert (Hauth' : authenticate Demo.env2 (Demo.bearer Demo.alice None)
                   = inr (Demo.payload_of Demo.alice)) by reflexivity.
  assert (Hold : In Demo.note_a1 (notes Demo.db)) by (simpl; tauto).
  split; [split; [exact demo_db_wf | repeat split; auto]|].
  exact (proj1 (deleted_note_is_gone Demo.env1 (Demo.bearer Demo.bob None)
                  Demo.db (Demo.payload_of Demo.bob) Demo.note_a1
                  demo_db_wf Hauth Hold eq_refl
                  Demo.env2 (Demo.bearer Demo.alice None)
                  (Demo.payload_of Demo.alice) Hauth')).
Defined.

(** X18.  What PUT /notes/:id writes is what GET /notes/:id reads.  For an
    update of a note of the caller's tenant with a body whose title and
    content are strings or absent: with at least one of them in the body
    the update answers the note with the texts of the body (the stored text
    for the one the body lacks), the id, tenant, owner and [createdAt] of
    before and the time of the update as [updatedAt]; with neither in the
    body it answers the note as stored, [updatedAt] included, and writes
    nothing.  In both cases GET /notes/:id with the same id then answers
    200 to every caller of that tenant with the note that the update
    answered. *)
Theorem updated_note_is_read_back `{Externals}
    (env : Env) (req : Request) (s : Store) (user : Payload.t)
    (old : Note.t) (title content : string) :
  wf s ->
  authenticate env req = inr user ->
  In old (notes s) ->
  Note.tenantId old = Payload.tenantId user ->
  update_text (Note.title old) (prop (body_or_empty req) "title")
  = Some title ->
  update_text (Note.content old) (prop (body_or_empty req) "content")
  = Some content ->
  (prop (body_or_empty req) "title" <> None \/
   prop (body_or_empty req) "content" <> None ->
   fst (app env (PUT_note (Note.id old)) req s)
   = json_ok (BNote (Note.mk (Note.id old) title content (Note.tenantId old)
                             (Note.ownerId old) (Note.createdAt old)
                             (now env))))
  /\
  (prop (body_or_empty req) "title" = None ->
   prop (body_or_empty req) "content" = None ->
   app env (PUT_note (Note.id old)) req s = (json_ok (BNote old), s))
  /\
  forall (env' : Env) (req' : Request) (user' : Payload.t),
    authenticate env' req' = inr user' ->
    Payload.tenantId user' = Payload.tenantId user ->
    app env' (GET_note (Note.id old)) req'
        (snd (app env (PUT_note (Note.id old)) req s))
    = (fst (app env (PUT_note (Note.id old)) req s),
       snd (app env (PUT_note (Note.id old)) req s)).
Proof.
  intros Hwf Hauth Hold Hten Ht Hc.
  pose proof (app_wf env (PUT_note (Note.id old)) req s Hwf) as Hwf'.
  split; [|split].
  - intros Hsome.
    now rewrite (put_route env req s user old title content) by auto.
  - intros Hnt Hnc. now apply (put_route_empty env req s user old).
  - intros env' req' user' Hauth' Hsame.
    destruct (prop (body_or_empty req) "title") as [jt|] eqn:Et;
      [|destruct (prop (body_or_empty req) "content") as [jc|] eqn:Ec].
    + rewrite (put_route env req s user old title content) in *
        by (auto; rewrite ?Et; auto; left; discriminate).
      cbn [fst snd] in *.
      change (Note.id old)
        with (Note.id (set_texts title content (now env) old)) at 1.
      apply (get_route_found env' req' _ user'); auto.
      * simpl. apply in_map_iff. exists old. now rewrite String.eqb_refl.
      * simpl. congruence.
    + rewrite (put_route env req s user old title content) in *
        by (auto; rewrite ?Et, ?Ec; auto; right; discriminate).
      cbn [fst snd] in *.
      change (Note.id old)
        with (Note.id (set_texts title content (now env) old)) at 1.
      apply (get_route_found env' req' _ user'); auto.
      * simpl. apply in_map_iff. exists old. now rewrite String.eqb_refl.
      * simpl. congruence.
    + rewrite (put_route_empty env req s user old) by auto.
      cbn [fst snd].
      apply (get_route_found env' req' s user'); auto. congruence.
Qed.

Lemma updated_note_is_read_back_witness :
  (wf Demo.db /\
   authenticate Demo.env1 Demo.edit_content = inr (Demo.payload_of Demo.bob) /\
   In Demo.note_a1 (notes Demo.db) /\
   authenticate Demo.env2 (Demo.bearer Demo.alice None)
   = inr (Demo.payload_of Demo.alice)) /\
  app Demo.env2 (GET_note "n1") (Demo.bearer Demo.alice None)
      (snd (app Demo.env1 (PUT_note "n1") Demo.edit_content Demo.db))
  = (fst (app Demo.env1 (PUT_note "n1") Demo.edit_content Demo.db),
     snd (app Demo.env1 (PUT_note "n1") Demo.edit_content Demo.db)).
Proof.
  assert (Hauth : authenticate Demo.env1 Demo.edit_content
                  = inr (Demo.payload_of Demo.bob)) by reflexivity.
  assert (Hauth' : authenticate Demo.env2 (Demo.bearer Demo.alice None)
                   = inr (Demo.payload_of Demo.alice)) by reflexivity.
  assert (Hold : In Demo.note_a1 (notes Demo.db)) by (simpl; tauto).
  split; [split; [exact demo_db_wf | repeat split; auto]|].
  exact (proj2 (proj2 (updated_note_is_read_back Demo.env1 Demo.edit_content
                         Demo.db (Demo.payload_of Demo.bob) Demo.note_a1
                         "a1" "new text"
                         demo_db_wf Hauth Hold eq_refl eq_refl eq_refl))
               Demo.env2 (Demo.bearer Demo.alice None)
               (Demo.payload_of Demo.alice) Hauth' eq_refl).
Defined.

(* ===================================================================== *)
(** ** POST /tenants/:slug/upgrade, further *)
(* ===================================================================== *)

(** X19.  Whenever POST /tenants/:slug/upgrade answers 200, in a database
    with unique ids, the tenant in the body has the slug of the request and
    the plan PRO, and it is the row stored under that slug after the
    request, whether the message is "Upgraded to PRO" or "Already PRO". *)
Theorem upgrade_answers_pro `{Externals}
    (env : Env) (req : Request) (s s' : Store) (r : Response)
    (slug : string) :
  wf s ->
  app env (POST_upgrade slug) req s = (r, s') ->
  status r = 200 ->
  exists (message : string) (t : Tenant.t),
    payload r = BUpgrade message t /\
    (message = "Upgraded to PRO" \/ message = "Already PRO") /\
    Tenant.slug t = slug /\
    Tenant.plan t = PRO /\
    find (fun x => String.eqb (Tenant.slug x) slug) (tenants s') = Some t.
Proof.
  intros Hwf.
  assert (Hwf' : wf (snd (app env (POST_upgrade slug) req s)))
    by now apply app_wf.
  revert Hwf'.
  unfold_route. repeat break_match; try write_result;
    intros Hwf' [= <- <-]; simpl in *; try discriminate; intros H200.
  - match goal with
    | E : authenticate _ _ = inl _ |- _ =>
        apply authenticate_rejects in E; congruence
    end.
  - match goal with
    | F : find _ (tenants s) = Some ?t0,
      P : Plan_eqb (Tenant.plan ?t0) PRO = true |- _ =>
        exists "Already PRO", t0; repeat split; auto;
        [ apply find_some in F as [_ F]; now apply String.eqb_eq in F
        | destruct (Tenant.plan t0); [discriminate|reflexivity] ]
    end.
  - match goal with
    | F : find _ (tenants s) = Some ?t0,
      E : tenant_update _ _ _ _ = (Val ?t, _) |- _ =>
        apply tenant_update_inv in E as (old & Hold & -> & ->);
        apply find_some in F as [Hin Hslug];
        apply String.eqb_eq in Hslug;
        apply find_some in Hold as [Hoin Hoid];
        assert (old = t0) as -> by (apply (same_tenant_id s); auto);
        exists "Upgraded to PRO", (set_plan PRO (now env) t0);
        repeat split; auto; subst slug;
        change (Tenant.slug t0)
          with (Tenant.slug (set_plan PRO (now env) t0)) at 1;
        apply find_key; [exact (wf_tenant_slug _ Hwf')|];
        simpl; apply in_map_iff; exists t0;
        now rewrite String.eqb_refl
    end.
Qed.

Lemma upgrade_answers_pro_witness :
  (wf Demo.db /\
   status (fst (app Demo.env1 (POST_upgrade "acme")
                    (Demo.bearer Demo.alice None) Demo.db)) = 200) /\
  exists (message : string) (t : Tenant.t),
    payload (fst (app Demo.env1 (POST_upgrade "acme")
                      (Demo.bearer Demo.alice None) Demo.db))
    = BUpgrade message t /\
    (message = "Upgraded to PRO" \/ message = "Already PRO") /\
    Tenant.slug t = "acme" /\
    Tenant.plan t = PRO /\
    find (fun x => String.eqb (Tenant.slug x) "acme") (tenants Demo.db_pro)
    = Some t.
Proof.
  split; [split; [exact demo_db_wf | reflexivity]|].
  exact (upgrade_answers_pro Demo.env1 (Demo.bearer Demo.alice None) Demo.db
           Demo.db_pro
           (fst (app Demo.env1 (POST_upgrade "acme")
                     (Demo.bearer Demo.alice None) Demo.db))
           "acme" demo_db_wf eq_refl eq_refl).
Defined.
